(** * Crypto Portfolio Dashboard: a shallow embedding of [dashboard.py]

    The script is a linear pipeline: [load_portfolio] reads the holdings,
    [fetch_prices] asks the price service for live prices, [main] computes the
    per-row and total metrics and [print_table] renders them.

    Modelling choices.
    - A Python [float] is an IEEE binary64 number: Rocq's primitive [float].
    - A Python exception is a constructor of [exn]; code that may raise
      returns a [result].
    - The value produced by [json.load]/[json.loads] is a [json] tree.
    - The dictionaries [CG_IDS], [id_to_symbol] and the price mapping are
      finite maps with string keys ([gmap string _]).
    - The file system and the network are arguments ([fs], [net]) that give the
      outcome of the [open]/[json.load] and [urlopen]/[read]/[json.loads]
      blocks: a parsed value or the exception raised there.
    - A [str] is a [string] and [len] is [String.length].  The built-ins
      whose result depends on which characters a text holds are not defined
      by the script and are parameters: [str.upper], [float] on text,
      [format], and the writing of a text to [sys.stdout], which raises
      when the stream cannot take the text ([UnicodeEncodeError] when its
      encoding lacks a character). *)

From Stdlib Require Import ZArith String Ascii List Lia.
From Stdlib Require Import Floats.PrimFloat Floats.SpecFloat Floats.FloatOps.
From stdpp Require Import base option list strings gmap sorting.

Import ListNotations.
Set Warnings "-register-all".
Local Open Scope string_scope.
Local Open Scope list_scope.

(** ** Exceptions and results *)

Inductive exn : Set :=
| FileNotFoundError
| OSError
| UnicodeDecodeError
| UnicodeEncodeError
| JSONDecodeError
| URLError
| TimeoutError
| AttributeError
| TypeError
| KeyError
| ValueError
| OverflowError
| IndexError
| ZeroDivisionError.

Inductive result (A : Type) : Type :=
| Ok (a : A)
| Raise (e : exn).

Arguments Ok {A} a.
Arguments Raise {A} e.

Definition rbind {A B : Type} (r : result A) (k : A -> result B) : result B :=
  match r with
  | Ok a => k a
  | Raise e => Raise e
  end.

Declare Scope result_scope.
Delimit Scope result_scope with result.
Notation "'let*' x ':=' r 'in' k" := (rbind r (fun x => k))
  (at level 10, x pattern, r at level 100, k at level 200) : result_scope.
Local Open Scope result_scope.

Definition is_ok {A : Type} (r : result A) : bool :=
  match r with Ok _ => true | Raise _ => false end.

(** A comprehension or [for] loop whose body may raise: the elements are
    visited left to right and the first exception ends the loop. *)
Fixpoint map_result {A B : Type} (f : A -> result B) (l : list A) : result (list B) :=
  match l with
  | [] => Ok []
  | x :: xs => let* y := f x in let* ys := map_result f xs in Ok (y :: ys)
  end.

Fixpoint fold_result {S A : Type} (f : S -> A -> result S) (l : list A) (s : S) : result S :=
  match l with
  | [] => Ok s
  | x :: xs => let* s' := f s x in fold_result f xs s'
  end.

(** ** Console output: the texts written by [print], and how the run ended *)

Definition io (A : Type) : Type := (list string * result A)%type.

Definition io_ret {A : Type} (a : A) : io A := ([], Ok a).

Definition io_lift {A : Type} (r : result A) : io A := ([], r).

Definition io_bind {A B : Type} (m : io A) (k : A -> io B) : io B :=
  match m with
  | (out, Ok a) => let '(out', r) := k a in (out ++ out', r)
  | (out, Raise e) => (out, Raise e)
  end.

Declare Scope io_scope.
Delimit Scope io_scope with io.
Notation "'let+' x ':=' m 'in' k" := (io_bind m (fun x => k))
  (at level 10, x pattern, m at level 100, k at level 200) : io_scope.

Fixpoint io_for {A : Type} (f : A -> io unit) (l : list A) : io unit :=
  match l with
  | [] => io_ret tt
  | x :: xs => io_bind (f x) (fun _ => io_for f xs)
  end.

(** ** JSON values *)

(** The Python value built by [json.load]: [None], [bool], [int], [float],
    [str], [list] and [dict].  A [JObj] holds the items of the dict in
    insertion order; [json] has already resolved repeated keys. *)
Inductive json : Type :=
| JNull
| JBool (b : bool)
| JInt (z : Z)
| JFloat (f : float)
| JStr (s : string)
| JList (l : list json)
| JObj (d : list (string * json)).

Fixpoint obj_get (d : list (string * json)) (k : string) : option json :=
  match d with
  | [] => None
  | (k', v) :: r => if String.eqb k' k then Some v else obj_get r k
  end.

(** [x[k]] with a string key [k]. *)
Definition py_getitem (x : json) (k : string) : result json :=
  match x with
  | JObj d => match obj_get d k with
              | Some v => Ok v
              | None => Raise KeyError
              end
  | _ => Raise TypeError
  end.

Fixpoint chars (s : string) : list string :=
  match s with
  | EmptyString => []
  | String c r => String c EmptyString :: chars r
  end.

(** The elements visited by [for a in x]. *)
Definition py_iter (x : json) : result (list json) :=
  match x with
  | JList l => Ok l
  | JObj d => Ok (map (fun kv => JStr (fst kv)) d)
  | JStr s => Ok (map JStr (chars s))
  | _ => Raise TypeError
  end.

(** The capital of an ASCII letter; any other character is unchanged. *)
Definition upper_ascii (c : ascii) : ascii :=
  let n := nat_of_ascii c in
  if (97 <=? n)%nat && (n <=? 122)%nat then ascii_of_nat (n - 32) else c.

(** What [str.upper] does to a text of ASCII characters.  It stands in for
    [str.upper] at the sample inputs only, which are ASCII. *)
Fixpoint ascii_upper (s : string) : string :=
  match s with
  | EmptyString => EmptyString
  | String c r => String (upper_ascii c) (ascii_upper r)
  end.

(** [float(z)] for a Python [int]: the nearest binary64 number, ties to even. *)
Definition float_of_Z (z : Z) : float :=
  SF2Prim (binary_normalize prec emax z 0 false).

(** ** Constants and records of the script *)

Definition PORTFOLIO_FILE : string := "portfolio.json".

(** The literal of [CG_IDS], in source order: ticker, CoinGecko identifier. *)
Definition CG_IDS_items : list (string * string) :=
  [ ("BTC", "bitcoin");
    ("ETH", "ethereum");
    ("SOL", "solana");
    ("USDT", "tether");
    ("BNB", "binancecoin");
    ("XRP", "ripple");
    ("DOGE", "dogecoin");
    ("TON", "the-open-network");
    ("ADA", "cardano");
    ("ARB", "arbitrum");
    ("OP", "optimism") ].

Definition CG_IDS : gmap string string := list_to_map CG_IDS_items.

(** [{v: k for k, v in CG_IDS.items()}]: the items are inserted in order. *)
Definition id_to_symbol : gmap string string :=
  fold_left (fun d kv => <[snd kv := fst kv]> d) CG_IDS_items ∅.

(** What [main] reads from a loaded record: the three entries that
    [load_portfolio] has just stored in it. *)
Record Holding : Type := mkHolding {
  symbol : string;
  amount : float;
  buy_price_usd : float
}.

(** [[CG_IDS[s] for s in symbols if s in CG_IDS]]. *)
Definition cg_ids_of (symbols : list string) : list string :=
  omap (fun s => CG_IDS !! s) symbols.

(** [x.items()]: only a [dict] has the method. *)
Definition py_items (x : json) : result (list (string * json)) :=
  match x with
  | JObj d => Ok d
  | _ => Raise AttributeError
  end.

(** [k in x] for a string [k]: a key of a dict, an element of a list, a
    substring of a string; the other values are not containers. *)
Definition py_contains (k : string) (x : json) : result bool :=
  match x with
  | JObj d => Ok (match obj_get d k with Some _ => true | None => false end)
  | JList l =>
      Ok (existsb (fun v => match v with JStr s => String.eqb s k | _ => false end) l)
  | JStr s => Ok (match index 0 k s with Some _ => true | None => false end)
  | _ => Raise TypeError
  end.

(** The handler [except (urllib.error.URLError, TimeoutError, json.JSONDecodeError)]. *)
Definition caught (e : exn) : bool :=
  match e with
  | URLError | TimeoutError | JSONDecodeError => true
  | _ => false
  end.

(** [bool(x)] for a float: true unless [x] is zero (of either sign). *)
Definition truthy (x : float) : bool := negb (x =? 0)%float.

(** [x / y] on floats raises on a zero divisor. *)
Definition py_truediv (x y : float) : result float :=
  if (y =? 0)%float then Raise ZeroDivisionError else Ok (x / y)%float.

(** [(pnl / cost * 100.0) if cost else 0.0], the expression computing both
    [pnl_pct] and [total_pct]. *)
Definition pct (pnl cost : float) : result float :=
  if truthy cost then
    let* q := py_truediv pnl cost in Ok (q * 100)%float
  else Ok 0%float.

(** [sorted({...})]: the distinct strings in increasing order. *)
Fixpoint insert_sorted (s : string) (l : list string) : list string :=
  match l with
  | [] => [s]
  | x :: r =>
      match String.compare s x with
      | Lt => s :: l
      | Eq => l
      | Gt => x :: insert_sorted s r
      end
  end.

Definition sorted_set (l : list string) : list string :=
  fold_right insert_sorted [] l.

(** The values of one iteration of the loop of [main]: the ReportRow. *)
Record ReportRow : Type := mkRow {
  row_symbol : string;
  row_amount : float;
  row_buy : float;
  row_price : float;
  row_cost : float;
  row_value : float;
  row_pnl : float;
  row_pnl_pct : float
}.

(** ** Table Renderer: column widths *)

Definition enumerate {A : Type} (l : list A) : list (nat * A) :=
  imap pair l.

(** [r[i]] on a list. *)
Definition py_index (r : list string) (i : nat) : result string :=
  match r !! i with
  | Some c => Ok c
  | None => Raise IndexError
  end.

(** [max(x, *xs)]: with no further argument, [max] takes [x] for an iterable,
    and an [int] is not one. *)
Definition py_max (x : nat) (xs : list nat) : result nat :=
  match xs with
  | [] => Raise TypeError
  | _ :: _ => Ok (fold_left Nat.max xs x)
  end.

Definition col_width (rows : list (list string)) (ih : nat * string) : result nat :=
  let '(i, h) := ih in
  let* lens :=
    map_result (fun r => let* c := py_index r i in Ok (String.length c)) rows in
  py_max (String.length h) lens.

Definition col_w (rows : list (list string)) (headers : list string)
  : result (list nat) :=
  map_result (col_width rows) (enumerate headers).

Fixpoint repeat_str (s : string) (n : nat) : string :=
  match n with
  | O => ""
  | S k => s ++ repeat_str s k
  end.

Definition ljust (s : string) (w : nat) : string :=
  s ++ repeat_str " " (w - String.length s).

(** The text printed by the local functions [line] and [row]. *)
Definition line_text (widths : list nat) (char : string) : string :=
  "+" ++ String.concat "+" (map (fun w => repeat_str char (w + 2)) widths) ++ "+".

Definition row_text (widths : list nat) (items : list string) : string :=
  "| "
  ++ String.concat " | " (map (fun iw => ljust (fst iw) (snd iw)) (combine items widths))
  ++ " |".

Definition headers : list string :=
  ["Asset"; "Amount"; "Buy/USD"; "Price/USD"; "Cost"; "Value"; "PnL"; "PnL%"].

Definition nl : string := String (ascii_of_nat 10) EmptyString.

(** The bytes of the pictograph that opens the title in the source file. *)
Definition title_icon : string :=
  string_of_list_ascii
    (map ascii_of_nat [195; 176; 197; 184; 226; 128; 156; 197; 160]%nat).

Definition title : string :=
  nl ++ title_icon ++ " Crypto Portfolio Dashboard" ++ nl.

Section Dashboard.

(** Python's built-in conversions between text and [float], which the script
    uses and does not define: [float(s)] for a [str] ([None] when it raises
    [ValueError]) and [format(x, spec)]. *)
Variable str_to_float : string -> option float.
Variable format_float : string -> float -> string.

(** [s.upper()], Python's upper-casing of a text. *)
Variable upper : string -> string.

(** The outcome of writing a text to [sys.stdout]: nothing, or the exception
    that the stream raises for it. *)
Variable stdout_write : string -> result unit.

(** [print(s)]: the text is written, or the exception of the stream leaves
    [print] and nothing of the text is written. *)
Definition print (s : string) : io unit :=
  match stdout_write s with
  | Ok _ => ([s], Ok tt)
  | Raise e => ([], Raise e)
  end.

(** [x.upper()]: only a [str] has the method. *)
Definition py_upper (x : json) : result string :=
  match x with
  | JStr s => Ok (upper s)
  | _ => Raise AttributeError
  end.

(** ** Table Renderer: printing *)

Definition line (widths : list nat) (char : string) : io unit :=
  print (line_text widths char).

Definition row (widths : list nat) (items : list string) : io unit :=
  print (row_text widths items).

Local Open Scope io_scope.

Definition print_table (rows : list (list string)) (headers : list string) : io unit :=
  let+ widths := io_lift (col_w rows headers) in
  let+ _ := line widths "=" in
  let+ _ := row widths headers in
  let+ _ := line widths "=" in
  let+ _ := io_for (row widths) rows in
  line widths "=".

Local Close Scope io_scope.

(** [float(x)]. *)
Definition py_float (x : json) : result float :=
  match x with
  | JFloat f => Ok f
  | JInt z => let f := float_of_Z z in
              if PrimFloat.is_infinity f then Raise OverflowError else Ok f
  | JBool b => Ok (if b then 1%float else 0%float)
  | JStr s => match str_to_float s with
              | Some f => Ok f
              | None => Raise ValueError
              end
  | JNull | JList _ | JObj _ => Raise TypeError
  end.

(** ** Holdings Loader *)

(** The body of the normalising loop, for one element [a] of the data. *)
Definition normalize (a : json) : result Holding :=
  let* s := py_getitem a "symbol" in
  let* sym := py_upper s in
  let* x := py_getitem a "amount" in
  let* amt := py_float x in
  let* y := py_getitem a "buy_price_usd" in
  let* buy := py_float y in
  Ok (mkHolding sym amt buy).

Definition load_portfolio (fs : string -> result json) (path : string)
  : result (list Holding) :=
  let* data := fs path in
  let* items := py_iter data in
  map_result normalize items.

(** ** Price Fetcher *)

Definition price_url (ids : list string) : string :=
  "https://api.coingecko.com/api/v3/simple/price"
  ++ "?ids=" ++ String.concat "," ids ++ "&vs_currencies=usd".

(** The body of the loop over [data.items()], for one item. *)
Definition price_entry (prices : gmap string float) (item : string * json)
  : result (gmap string float) :=
  let '(cg_id, payload) := item in
  match id_to_symbol !! cg_id with
  | Some sym =>
      if negb (String.eqb sym "") then
        let* has_usd := py_contains "usd" payload in
        if has_usd : bool then
          let* v := py_getitem payload "usd" in
          let* f := py_float v in
          Ok (<[sym := f]> prices)
        else Ok prices
      else Ok prices
  | None => Ok prices
  end.

Definition fetch_prices (net : string -> result json) (symbols : list string)
  : result (gmap string float) :=
  let ids := cg_ids_of symbols in
  match ids with
  | [] => Ok ∅
  | _ :: _ =>
      match net (price_url ids) with
      | Raise e => if caught e then Ok ∅ else Raise e
      | Ok data =>
          let* items := py_items data in
          fold_result price_entry items ∅
      end
  end.

(** ** Metrics Calculator and Orchestrator *)

Definition fmt_money (x : float) : string :=
  "$" ++ format_float ",.2f" x.

Definition fmt_pct (x : float) : string :=
  let sign := if (0 <=? x)%float then "+" else "" in
  sign ++ format_float ".2f" x ++ "%".

(** The arithmetic of one iteration of the loop of [main]. *)
Definition compute_row (live : gmap string float) (a : Holding) : result ReportRow :=
  let sym := symbol a in
  let amt := amount a in
  let buy := buy_price_usd a in
  let live_price := default buy (live !! sym) in
  let cost := (amt * buy)%float in
  let value := (amt * live_price)%float in
  let pnl := (value - cost)%float in
  let* pnl_pct := pct pnl cost in
  Ok (mkRow sym amt buy live_price cost value pnl pnl_pct).

(** The list appended to [rows]. *)
Definition format_row (r : ReportRow) : list string :=
  [ row_symbol r;
    format_float "g" (row_amount r);
    fmt_money (row_buy r);
    fmt_money (row_price r);
    fmt_money (row_cost r);
    fmt_money (row_value r);
    fmt_money (row_pnl r);
    fmt_pct (row_pnl_pct r) ].

(** The state of the loop: [rows], [total_cost], [total_value]. *)
Definition loop_state : Type := (list (list string) * float * float)%type.

Definition main_step (live : gmap string float) (st : loop_state) (a : Holding)
  : result loop_state :=
  let '(rows, total_cost, total_value) := st in
  let* r := compute_row live a in
  Ok (rows ++ [format_row r],
      (total_cost + row_cost r)%float,
      (total_value + row_value r)%float).

Definition main_loop (live : gmap string float) (pf : list Holding) : result loop_state :=
  fold_result (main_step live) pf ([], 0%float, 0%float).

(** The arithmetic after the table: [total_pnl] and [total_pct]. *)
Definition totals (total_cost total_value : float) : result (float * float) :=
  let total_pnl := (total_value - total_cost)%float in
  let* total_pct := pct total_pnl total_cost in
  Ok (total_pnl, total_pct).

Local Open Scope io_scope.

Definition main (fs : string -> result json) (net : string -> result json) : io unit :=
  let+ pf := io_lift (load_portfolio fs PORTFOLIO_FILE) in
  let symbols := sorted_set (map symbol pf) in
  let+ live := io_lift (fetch_prices net symbols) in
  let+ st := io_lift (main_loop live pf) in
  let '(rows, total_cost, total_value) := st in
  let+ _ := print title in
  let+ _ := print_table rows headers in
  let+ tot := io_lift (totals total_cost total_value) in
  let '(total_pnl, total_pct) := tot in
  let+ _ := print ("Total Cost : " ++ fmt_money total_cost) in
  let+ _ := print ("Total Value: " ++ fmt_money total_value) in
  print ("Total PnL  : " ++ fmt_money total_pnl ++ "  (" ++ fmt_pct total_pct ++ ")" ++ nl).

Local Close Scope io_scope.

End Dashboard.

(** ** Specification-side notions *)

(** The sum of a column of the report: the values added in row order,
    starting from [0.0]. *)
Definition fsum (l : list float) : float :=
  fold_left PrimFloat.add l 0%float.

(** The zero-guarded percentage, as the specification words it. *)
Definition guarded_pct (pnl cost : float) : float :=
  if (cost =? 0)%float then 0%float else (pnl / cost * 100)%float.

(** The cell of row [r] in column [i], and the length of the longest row
    value of column [i]. *)
Definition cell (r : list string) (i : nat) : string := default "" (r !! i).

Definition longest (rows : list (list string)) (i : nat) : nat :=
  max_list (map (fun r => String.length (cell r i)) rows).

(** A record the loader accepts: an object whose [symbol] is a string and
    whose [amount] and [buy_price_usd] are values that [float] converts. *)
Definition valid_record (str_to_float : string -> option float) (a : json) : bool :=
  match a with
  | JObj d =>
      match obj_get d "symbol", obj_get d "amount", obj_get d "buy_price_usd" with
      | Some (JStr _), Some x, Some y =>
          is_ok (py_float str_to_float x) && is_ok (py_float str_to_float y)
      | _, _, _ => false
      end
  | _ => false
  end.

(** Parsed contents that load: an iterable value all of whose elements are
    valid records. *)
Definition loadable (str_to_float : string -> option float) (data : json) : bool :=
  match py_iter data with
  | Ok items => forallb (valid_record str_to_float) items
  | Raise _ => false
  end.

(** The holding [h] is the normal form of the record [a]: its symbol is
    [upper] of the record's string symbol, and its amount and buy price are
    [float] of the record's values. *)
Definition normalizes (str_to_float : string -> option float)
           (upper : string -> string) (a : json) (h : Holding) : Prop :=
  exists s x y,
    py_getitem a "symbol" = Ok (JStr s)
    /\ py_getitem a "amount" = Ok x
    /\ py_getitem a "buy_price_usd" = Ok y
    /\ symbol h = upper s
    /\ py_float str_to_float x = Ok (amount h)
    /\ py_float str_to_float y = Ok (buy_price_usd h).

(** The record [a] is an object with the three required fields. *)
Definition has_fields (a : json) : bool :=
  match a with
  | JObj d =>
      match obj_get d "symbol", obj_get d "amount", obj_get d "buy_price_usd" with
      | Some _, Some _, Some _ => true
      | _, _, _ => false
      end
  | _ => false
  end.

(** The field [k] of [a] holds a value that [float] does not convert. *)
Definition non_numeric (str_to_float : string -> option float) (a : json) (k : string)
  : bool :=
  match py_getitem a k with
  | Ok v => negb (is_ok (py_float str_to_float v))
  | Raise _ => false
  end.

(** The failure conditions of the loader as the specification lists them,
    read generously: the file cannot be opened or parsed, the contents are
    not a list, or some element of the list lacks one of the three fields or
    has an amount or a price that [float] does not convert. *)
Definition stated_load_failure (str_to_float : string -> option float)
           (contents : result json) : bool :=
  match contents with
  | Raise _ => true
  | Ok (JList l) =>
      existsb (fun a => negb (has_fields a)
                        || non_numeric str_to_float a "amount"
                        || non_numeric str_to_float a "buy_price_usd") l
  | Ok _ => true
  end.

(** The item [(cg_id, payload)] of a response quotes the price [f] for the
    ticker [sym]: [cg_id] is the identifier of [sym], the payload contains
    ["usd"], and [float] converts its value to [f]. *)
Definition quotes (str_to_float : string -> option float) (item : string * json)
           (sym : string) (f : float) : Prop :=
  CG_IDS !! sym = Some (fst item)
  /\ py_contains "usd" (snd item) = Ok true
  /\ exists v, py_getitem (snd item) "usd" = Ok v /\ py_float str_to_float v = Ok f.

(** The length of every line of a table with the given column widths: each
    column takes its width, two spaces and one separator, and one separator
    closes the line. *)
Definition table_width (widths : list nat) : nat :=
  sum_list_with (fun w => w + 3) widths + 1.

(** The three lines printed after the table, for the given totals. *)
Definition total_lines (format_float : string -> float -> string)
           (total_cost total_value : float) : list string :=
  [ "Total Cost : " ++ fmt_money format_float total_cost;
    "Total Value: " ++ fmt_money format_float total_value;
    "Total PnL  : " ++ fmt_money format_float (total_value - total_cost)%float
      ++ "  ("
      ++ fmt_pct format_float
           (guarded_pct (total_value - total_cost)%float total_cost)
      ++ ")" ++ nl ]%string.

(** The strict order in which [sorted] puts strings. *)
Definition str_lt (a b : string) : Prop := String.compare a b = Lt.

(** The texts that [print_table] hands to [print], in order. *)
Definition table_lines (widths : list nat) (rows : list (list string))
           (hs : list string) : list string :=
  [line_text widths "="; row_text widths hs; line_text widths "="]
    ++ map (row_text widths) rows ++ [line_text widths "="].

(** The texts that a run hands to [print], in order: the title, the table
    of the formatted rows and the three lines of totals. *)
Definition report_lines (format_float : string -> float -> string)
           (widths : list nat) (rs : list ReportRow) : list string :=
  title :: table_lines widths (map (format_row format_float) rs) headers
    ++ total_lines format_float (fsum (map row_cost rs)) (fsum (map row_value rs)).

(** Printing texts one after the other: the first text that the console
    refuses ends the printing with its exception. *)
Definition print_all (stdout_write : string -> result unit) (lines : list string)
  : io unit :=
  io_for (print stdout_write) lines.

(** The console takes the text. *)
Definition accepts (stdout_write : string -> result unit) (s : string) : Prop :=
  stdout_write s = Ok tt.

(** ** Sample inputs *)

(** A console that takes every text, such as a stream encoded in UTF-8. *)
Definition utf8_stdout (_ : string) : result unit := Ok tt.

(** A console whose encoding has no code for the characters that open the
    title, and takes every other text. *)
Definition plain_stdout (s : string) : result unit :=
  if String.eqb s title then Raise UnicodeEncodeError else Ok tt.

(** A stand-in for [float] on text, for inputs that hold no number as text. *)
Definition no_text_floats (_ : string) : option float := None.

(** A stand-in for [format]: it shows the format specification. *)
Definition show_spec (spec : string) (_ : float) : string := spec.

Definition record (sym : json) (amt buy : json) : json :=
  JObj [("symbol", sym); ("amount", amt); ("buy_price_usd", buy)].

(** The holdings of the example scenario: 0.5 BTC bought at 20000 and 2 ETH
    bought at 1500; the service answers for BTC only. *)
Definition scenario_fs (_ : string) : result json :=
  Ok (JList [record (JStr "btc") (JFloat 0.5) (JInt 20000);
             record (JStr "ETH") (JInt 2) (JInt 1500)]).

Definition scenario_net (_ : string) : result json :=
  Ok (JObj [("bitcoin", JObj [("usd", JInt 30000)])]).

Definition scenario_pf : list Holding :=
  [mkHolding "BTC" 0.5 20000; mkHolding "ETH" 2 1500].

Definition scenario_live : gmap string float := {["BTC" := 30000%float]}.

(** A file whose only record has a number for symbol. *)
Definition numeric_symbol_fs (_ : string) : result json :=
  Ok (JList [record (JInt 5) (JInt 1) (JInt 2)]).

(** A file whose only record has the empty string for symbol. *)
Definition empty_symbol_fs (_ : string) : result json :=
  Ok (JList [record (JStr "") (JInt 1) (JInt 1)]).

(** A file with an empty record collection. *)
Definition empty_fs (_ : string) : result json := Ok (JList []).

(** A response with a price for an identifier that was not requested. *)
Definition generous_net (_ : string) : result json :=
  Ok (JObj [("bitcoin", JObj [("usd", JInt 30000)]);
            ("ethereum", JObj [("usd", JInt 2000)])]).

(** A response that also quotes a price for SOL, which the scenario does
    not hold. *)
Definition extra_net (_ : string) : result json :=
  Ok (JObj [("bitcoin", JObj [("usd", JInt 30000)]);
            ("solana", JObj [("usd", JInt 150)])]).

(** A network that answers the request for bitcoin alone like
    [scenario_net] and fails on every other URL. *)
Definition bitcoin_only_net (url : string) : result json :=
  if String.eqb url (price_url ["bitcoin"]) then scenario_net url else Raise URLError.

(** A response that is a JSON array. *)
Definition array_net (_ : string) : result json := Ok (JList []).

(** A network that is down. *)
Definition down_net (_ : string) : result json := Raise URLError.

(** A file whose second record has no amount and whose third is not a
    record. *)
Definition second_bad_fs (_ : string) : result json :=
  Ok (JList [record (JStr "btc") (JInt 1) (JInt 2);
             JObj [("symbol", JStr "eth"); ("buy_price_usd", JInt 3)];
             JNull]).

(** A table with two headers whose second row has a cell more. *)
Definition sample_headers : list string := ["x"; "yy"].

Definition sample_rows : list (list string) :=
  [["a"; "bcd"]; ["abcd"; ""; "zz"]].

(** * Properties *)

(** ** Generic facts about loops that may raise *)

Lemma map_result_ok {A B : Type} (f : A -> result B) (g : A -> B) (l : list A) :
  (forall x, x ∈ l -> f x = Ok (g x)) ->
  map_result f l = Ok (map g l).
Proof.
  induction l as [|x xs IH]; intros Hf; simpl.
  - reflexivity.
  - rewrite (Hf x) by (left; reflexivity). simpl.
    rewrite IH by (intros y Hy; apply Hf; right; exact Hy).
    reflexivity.
Qed.

Lemma map_result_Forall2 {A B : Type} (f : A -> result B) (l : list A) (ys : list B) :
  map_result f l = Ok ys -> Forall2 (fun x y => f x = Ok y) l ys.
Proof.
  revert ys. induction l as [|x xs IH]; intros ys H; simpl in H.
  - injection H as <-. constructor.
  - destruct (f x) as [y|e] eqn:Hx; simpl in H; [|discriminate].
    destruct (map_result f xs) as [ys'|e] eqn:Hxs; simpl in H; [|discriminate].
    injection H as <-. constructor; [exact Hx | apply IH; reflexivity].
Qed.

Lemma fold_result_inv {S A : Type} (P : S -> Prop) (f : S -> A -> result S)
      (l : list A) (s s' : S) :
  P s ->
  (forall s0 x s1, x ∈ l -> P s0 -> f s0 x = Ok s1 -> P s1) ->
  fold_result f l s = Ok s' ->
  P s'.
Proof.
  revert s. induction l as [|x xs IH]; intros s Hs Hstep H; simpl in H.
  - injection H as <-. exact Hs.
  - destruct (f s x) as [s1|e] eqn:Hx; simpl in H; [|discriminate].
    apply (IH s1).
    + apply (Hstep s x s1); [left; reflexivity | exact Hs | exact Hx].
    + intros s0 y s2 Hy. apply Hstep. right. exact Hy.
    + exact H.
Qed.

(** ** The percentage never divides by zero *)

Lemma pct_guarded (pnl cost : float) : pct pnl cost = Ok (guarded_pct pnl cost).
Proof.
  unfold pct, guarded_pct, truthy, py_truediv.
  destruct (cost =? 0)%float; reflexivity.
Qed.

Lemma compute_row_ok (live : gmap string float) (a : Holding) :
  compute_row live a =
  Ok (mkRow (symbol a) (amount a) (buy_price_usd a)
            (default (buy_price_usd a) (live !! symbol a))
            (amount a * buy_price_usd a)
            (amount a * default (buy_price_usd a) (live !! symbol a))
            (amount a * default (buy_price_usd a) (live !! symbol a)
             - amount a * buy_price_usd a)
            (guarded_pct
               (amount a * default (buy_price_usd a) (live !! symbol a)
                - amount a * buy_price_usd a)
               (amount a * buy_price_usd a))).
Proof. unfold compute_row. rewrite pct_guarded. reflexivity. Qed.

Lemma compute_rows_total (live : gmap string float) (pf : list Holding) :
  exists rs, map_result (compute_row live) pf = Ok rs /\ length rs = length pf.
Proof.
  induction pf as [|a pf [rs [IH Hlen]]]; simpl.
  - exists []. split; reflexivity.
  - rewrite compute_row_ok, IH. simpl. eexists. split; [reflexivity|].
    simpl. rewrite Hlen. reflexivity.
Qed.

(** ** The loop of [main] *)

Lemma main_loop_from (format_float : string -> float -> string)
      (live : gmap string float) (pf : list Holding) (rs : list ReportRow)
      (rows : list (list string)) (c v : float) :
  map_result (compute_row live) pf = Ok rs ->
  fold_result (main_step format_float live) pf (rows, c, v) =
  Ok (rows ++ map (format_row format_float) rs,
      fold_left PrimFloat.add (map row_cost rs) c,
      fold_left PrimFloat.add (map row_value rs) v).
Proof.
  revert rs rows c v. induction pf as [|a pf IH]; intros rs rows c v H; simpl in H.
  - injection H as <-. simpl. rewrite app_nil_r. reflexivity.
  - destruct (compute_row live a) as [r|e] eqn:Hr; simpl in H; [|discriminate].
    destruct (map_result (compute_row live) pf) as [rs'|e] eqn:Hrs; simpl in H;
      [|discriminate].
    injection H as <-. simpl. rewrite Hr. simpl.
    rewrite (IH rs') by reflexivity.
    rewrite <- app_assoc. reflexivity.
Qed.

Lemma main_loop_rows (format_float : string -> float -> string)
      (live : gmap string float) (pf : list Holding) (rs : list ReportRow) :
  map_result (compute_row live) pf = Ok rs ->
  main_loop format_float live pf =
  Ok (map (format_row format_float) rs, fsum (map row_cost rs), fsum (map row_value rs)).
Proof. intros H. unfold main_loop. rewrite (main_loop_from _ _ _ rs) by exact H. reflexivity. Qed.

(** ** Metrics Calculator *)

(** C1: for every holding the resolved current price of its row is the live
    price when the symbol is a key of the price mapping and the holding's own
    buy price otherwise; with an empty mapping every row of every holdings
    list is still computed, each at its buy price. *)
Theorem resolved_price_live_or_buy (live : gmap string float) (a : Holding) :
  (exists r, compute_row live a = Ok r
     /\ (forall p, live !! symbol a = Some p -> row_price r = p)
     /\ (symbol a ∉ dom live -> row_price r = buy_price_usd a))
  /\ (forall pf : list Holding,
        exists rs, map_result (compute_row ∅) pf = Ok rs
          /\ Forall2 (fun h r => row_price r = buy_price_usd h) pf rs).
Proof.
  split.
  - eexists. split; [apply compute_row_ok|]. simpl. split.
    + intros p Hp. rewrite Hp. reflexivity.
    + intros Hnot. apply not_elem_of_dom in Hnot. rewrite Hnot. reflexivity.
  - intros pf. destruct (compute_rows_total ∅ pf) as [rs [Hrs _]].
    exists rs. split; [exact Hrs|].
    apply map_result_Forall2 in Hrs.
    eapply Forall2_impl; [exact Hrs|].
    intros h r Hr. simpl in Hr. rewrite compute_row_ok in Hr.
    injection Hr as <-. simpl. rewrite lookup_empty. reflexivity.
Qed.

(** C2: a holding whose cost [amount * buy_price] is exactly zero gets a PnL
    percent of 0 whatever the live price, the total PnL percent is 0 when the
    total cost is exactly zero, and the guarded expression never raises
    [ZeroDivisionError]: the division is not reached with a zero divisor. *)
Theorem pnl_pct_zero_cost_guard (live : gmap string float) (a : Holding)
        (total_cost total_value pnl cost : float) :
  ((amount a * buy_price_usd a =? 0)%float = true ->
     exists r, compute_row live a = Ok r /\ row_pnl_pct r = 0%float)
  /\ ((total_cost =? 0)%float = true ->
        totals total_cost total_value = Ok ((total_value - total_cost)%float, 0%float))
  /\ (exists q, pct pnl cost = Ok q)
  /\ ((cost =? 0)%float = true -> py_truediv pnl cost = Raise ZeroDivisionError)
  /\ ((cost =? 0)%float = true -> pct pnl cost = Ok 0%float).
Proof.
  repeat split.
  - intros Hz. eexists. split; [apply compute_row_ok|]. simpl.
    unfold guarded_pct. rewrite Hz. reflexivity.
  - intros Hz. unfold totals. rewrite pct_guarded. unfold guarded_pct.
    rewrite Hz. reflexivity.
  - eexists. apply pct_guarded.
  - intros Hz. unfold py_truediv. rewrite Hz. reflexivity.
  - intros Hz. rewrite pct_guarded. unfold guarded_pct. rewrite Hz. reflexivity.
Qed.

(** C7: for every holding of every holdings list, the row computed by the
    loop has cost [amount * buy_price] and value [amount * resolved_price],
    where the resolved price is the live price or, failing that, the buy
    price. *)
Theorem row_cost_and_value (live : gmap string float) (pf : list Holding) :
  exists rs, map_result (compute_row live) pf = Ok rs
    /\ Forall2 (fun h r =>
                  row_price r = default (buy_price_usd h) (live !! symbol h)
                  /\ row_cost r = (amount h * buy_price_usd h)%float
                  /\ row_value r = (amount h * row_price r)%float
                  /\ row_pnl r = (row_value r - row_cost r)%float) pf rs.
Proof.
  destruct (compute_rows_total live pf) as [rs [Hrs _]].
  exists rs. split; [exact Hrs|].
  apply map_result_Forall2 in Hrs.
  eapply Forall2_impl; [exact Hrs|].
  intros h r Hr. simpl in Hr. rewrite compute_row_ok in Hr.
  injection Hr as <-. simpl. repeat split; reflexivity.
Qed.

(** C8: for every holdings list and price mapping the loop ends with
    [total_cost] and [total_value] equal to the sums of the per-row cost and
    value; the total PnL is [total_value - total_cost] and the total PnL
    percent is [total_pnl / total_cost * 100], or 0 when the total cost is
    zero. *)
Theorem totals_are_sums (format_float : string -> float -> string)
        (live : gmap string float) (pf : list Holding) :
  exists rs total_cost total_value,
    map_result (compute_row live) pf = Ok rs
    /\ main_loop format_float live pf =
       Ok (map (format_row format_float) rs, total_cost, total_value)
    /\ total_cost = fsum (map row_cost rs)
    /\ total_value = fsum (map row_value rs)
    /\ totals total_cost total_value =
       Ok ((total_value - total_cost)%float,
           if (total_cost =? 0)%float then 0%float
           else ((total_value - total_cost) / total_cost * 100)%float).
Proof.
  destruct (compute_rows_total live pf) as [rs [Hrs _]].
  exists rs, (fsum (map row_cost rs)), (fsum (map row_value rs)).
  split; [exact Hrs|]. split; [apply main_loop_rows; exact Hrs|].
  split; [reflexivity|]. split; [reflexivity|].
  unfold totals. rewrite pct_guarded. reflexivity.
Qed.

(** ** Table Renderer *)

Lemma fold_left_max (xs : list nat) (x : nat) :
  fold_left Nat.max xs x = Nat.max x (max_list xs).
Proof.
  revert x. induction xs as [|y ys IH]; intros x; simpl.
  - lia.
  - rewrite IH. lia.
Qed.

Lemma py_index_cell (r : list string) (i : nat) :
  i < length r -> py_index r i = Ok (cell r i).
Proof.
  intros Hi. unfold py_index, cell.
  destruct (lookup_lt_is_Some_2 r i Hi) as [c Hc]. rewrite Hc. reflexivity.
Qed.

Lemma col_width_max (rows : list (list string)) (i : nat) (h : string) :
  rows <> [] ->
  Forall (fun r => i < length r) rows ->
  col_width rows (i, h) = Ok (Nat.max (String.length h) (longest rows i)).
Proof.
  intros Hne Hall. unfold col_width.
  rewrite (map_result_ok _ (fun r => String.length (cell r i))).
  - simpl. unfold py_max, longest.
    destruct rows as [|r rows]; [contradiction|]. simpl map at 1.
    rewrite fold_left_max. reflexivity.
  - intros r Hr. rewrite Forall_forall in Hall.
    rewrite py_index_cell by (apply Hall; exact Hr). reflexivity.
Qed.

Lemma cell_le_longest (rows : list (list string)) (i : nat) (r : list string) (c : string) :
  r ∈ rows -> r !! i = Some c -> String.length c <= longest rows i.
Proof.
  intros Hr Hc. unfold longest. apply max_list_elem_of_le.
  apply list_elem_of_In, in_map_iff. exists r. split.
  - unfold cell. rewrite Hc. reflexivity.
  - apply list_elem_of_In. exact Hr.
Qed.

Lemma col_w_computes (rows : list (list string)) (headers : list string) :
  rows <> [] ->
  Forall (fun r => length headers <= length r) rows ->
  col_w rows headers =
  Ok (map (fun ih => Nat.max (String.length (snd ih)) (longest rows (fst ih)))
          (enumerate headers)).
Proof.
  intros Hne Hall.
  unfold col_w. apply map_result_ok. intros [i h] Hih. simpl.
  apply col_width_max; [exact Hne|].
  unfold enumerate in Hih. apply elem_of_lookup_imap in Hih.
  destruct Hih as (j & h' & Heq & Hj). injection Heq as -> ->.
  apply lookup_lt_Some in Hj.
  eapply Forall_impl; [exact Hall|]. simpl. intros r Hr. lia.
Qed.

(** C9, as the code has it: for a non-empty list of rows each of which has at
    least as many cells as there are headers, [col_w] returns one width per
    header, the width of column [i] is the maximum of the length of header
    [i] and of the longest row value of column [i], and so the header and
    every cell of the column fit in it. *)
Theorem col_w_is_max (rows : list (list string)) (headers : list string) :
  rows <> [] ->
  Forall (fun r => length headers <= length r) rows ->
  exists widths,
    col_w rows headers = Ok widths
    /\ length widths = length headers
    /\ forall i h, headers !! i = Some h ->
         exists w, widths !! i = Some w
           /\ w = Nat.max (String.length h) (longest rows i)
           /\ String.length h <= w
           /\ forall r c, r ∈ rows -> r !! i = Some c -> String.length c <= w.
Proof.
  intros Hne Hall. eexists. split; [apply col_w_computes; assumption|].
  split.
  - rewrite length_map. unfold enumerate. apply length_imap.
  - intros i h Hh. eexists. split; [|split; [reflexivity|split]].
    + change (map ?f ?l) with (f <$> l).
      rewrite list_lookup_fmap. unfold enumerate.
      rewrite list_lookup_imap, Hh. reflexivity.
    + simpl. lia.
    + intros r c Hr Hc. simpl.
      pose proof (cell_le_longest rows i r c Hr Hc). lia.
Qed.

(** C10: with no rows the width of the first column is already
    [max(len(h))], which raises [TypeError]: [col_w] and [print_table] raise
    for every non-empty header list and print nothing, and a run whose
    holdings file loads as an empty collection prints the title and ends with
    that exception, without table or totals (or ends before, with the
    exception of the console, when the title cannot be written). *)
Theorem empty_rows_raise (str_to_float : string -> option float)
        (format_float : string -> float -> string)
        (upper : string -> string) (stdout_write : string -> result unit)
        (fs net : string -> result json) :
  load_portfolio str_to_float upper fs PORTFOLIO_FILE = Ok [] ->
  (forall h hs, col_w [] (h :: hs) = Raise TypeError)
  /\ (forall h hs, print_table stdout_write [] (h :: hs) = ([], Raise TypeError))
  /\ main str_to_float format_float upper stdout_write fs net =
     match stdout_write title with
     | Ok _ => ([title], Raise TypeError)
     | Raise e => ([], Raise e)
     end.
Proof.
  intros Hload. split; [|split].
  - intros h hs. reflexivity.
  - intros h hs. reflexivity.
  - unfold main. rewrite Hload. cbn. unfold print.
    destruct (stdout_write title); reflexivity.
Qed.

(** ** Price Fetcher *)

Lemma CG_IDS_keys_NoDup : NoDup (CG_IDS_items.*1).
Proof. apply (bool_decide_unpack _). vm_compute. exact I. Qed.

Lemma CG_IDS_ids_NoDup : NoDup ((prod_swap <$> CG_IDS_items).*1).
Proof. apply (bool_decide_unpack _). vm_compute. exact I. Qed.

Lemma id_to_symbol_list : id_to_symbol = list_to_map (prod_swap <$> CG_IDS_items).
Proof. vm_compute. reflexivity. Qed.

(** The reverse table sends an identifier to the one ticker that has it. *)
Lemma id_to_symbol_Some (cg_id sym : string) :
  id_to_symbol !! cg_id = Some sym <-> CG_IDS !! sym = Some cg_id.
Proof.
  rewrite id_to_symbol_list. unfold CG_IDS.
  rewrite <- (elem_of_list_to_map _ _ _ CG_IDS_ids_NoDup).
  rewrite <- (elem_of_list_to_map _ _ _ CG_IDS_keys_NoDup).
  rewrite list_elem_of_fmap. split.
  - intros [[k v] [Heq Hin]]. simpl in Heq. injection Heq as -> ->. exact Hin.
  - intros Hin. exists (sym, cg_id). split; [reflexivity | exact Hin].
Qed.

Lemma price_entry_cases (str_to_float : string -> option float)
      (prices prices' : gmap string float) (cg_id : string) (payload : json) :
  price_entry str_to_float prices (cg_id, payload) = Ok prices' ->
  prices' = prices
  \/ exists sym f, id_to_symbol !! cg_id = Some sym /\ prices' = <[sym := f]> prices.
Proof.
  unfold price_entry. intros H.
  destruct (id_to_symbol !! cg_id) as [sym|]; [|left; congruence].
  destruct (negb (String.eqb sym "")); [|left; congruence].
  destruct (py_contains "usd" payload) as [[|]|e]; simpl in H;
    [| left; congruence | discriminate].
  destruct (py_getitem payload "usd") as [v|e]; simpl in H; [|discriminate].
  destruct (py_float str_to_float v) as [f|e]; simpl in H; [|discriminate].
  right. exists sym, f. split; [reflexivity | congruence].
Qed.

(** Every key stored by the loop over [data.items()] is the ticker of an
    identifier of the response. *)
Lemma price_loop_keys (str_to_float : string -> option float)
      (items : list (string * json)) (prices : gmap string float) :
  fold_result (price_entry str_to_float) items ∅ = Ok prices ->
  forall k, k ∈ dom prices ->
    exists cg_id, cg_id ∈ items.*1 /\ id_to_symbol !! cg_id = Some k.
Proof.
  apply (fold_result_inv
           (fun p : gmap string float =>
              forall k, k ∈ dom p ->
                exists cg_id, cg_id ∈ items.*1 /\ id_to_symbol !! cg_id = Some k)).
  - intros k Hk. rewrite dom_empty_L in Hk. set_solver.
  - intros p [cg_id payload] p' Hin Hp Hstep k Hk.
    apply price_entry_cases in Hstep.
    destruct Hstep as [-> | (sym & f & Hsym & ->)]; [apply Hp; exact Hk|].
    rewrite dom_insert_L in Hk. apply elem_of_union in Hk.
    destruct Hk as [Hk | Hk]; [|apply Hp; exact Hk].
    apply elem_of_singleton in Hk. subst k.
    exists cg_id. split; [|exact Hsym].
    apply (list_elem_of_fmap_2 fst) in Hin. exact Hin.
Qed.

Lemma fetch_prices_cases (str_to_float : string -> option float)
      (net : string -> result json) (symbols : list string)
      (prices : gmap string float) :
  fetch_prices str_to_float net symbols = Ok prices ->
  prices = ∅
  \/ exists items, net (price_url (cg_ids_of symbols)) = Ok (JObj items)
        /\ fold_result (price_entry str_to_float) items ∅ = Ok prices.
Proof.
  unfold fetch_prices. intros H.
  destruct (cg_ids_of symbols) as [|i ids]; [left; congruence|].
  destruct (net (price_url (i :: ids))) as [data|e].
  - destruct data; simpl in H; try discriminate.
    right. eexists. split; [reflexivity | exact H].
  - destruct (caught e); [left; congruence | discriminate].
Qed.

(** The failures named by the handler give the empty mapping. *)
Lemma fetch_prices_caught (str_to_float : string -> option float)
      (net : string -> result json) (symbols : list string) (e : exn) :
  net (price_url (cg_ids_of symbols)) = Raise e ->
  caught e = true ->
  fetch_prices str_to_float net symbols = Ok ∅.
Proof.
  intros Hnet He. unfold fetch_prices.
  destruct (cg_ids_of symbols); [reflexivity|].
  rewrite Hnet, He. reflexivity.
Qed.

(** C3, as the code has it: the keys of the mapping returned by
    [fetch_prices] are tickers of the static table [CG_IDS], whatever the
    response; they are among the requested symbols when every identifier of
    the response is one that was requested. *)
Theorem fetched_keys_in_table (str_to_float : string -> option float)
        (net : string -> result json) (symbols : list string)
        (prices : gmap string float) :
  fetch_prices str_to_float net symbols = Ok prices ->
  (forall k, k ∈ dom prices -> k ∈ dom CG_IDS)
  /\ ((forall items cg_id,
         net (price_url (cg_ids_of symbols)) = Ok (JObj items) ->
         cg_id ∈ items.*1 -> cg_id ∈ cg_ids_of symbols) ->
      forall k, k ∈ dom prices -> k ∈ symbols).
Proof.
  intros H. apply fetch_prices_cases in H.
  destruct H as [-> | (items & Hnet & Hloop)].
  - split; [|intros _]; intros k Hk; rewrite dom_empty_L in Hk; set_solver.
  - pose proof (price_loop_keys _ _ _ Hloop) as Hkeys. split.
    + intros k Hk. destruct (Hkeys k Hk) as (cg_id & _ & Hsym).
      apply id_to_symbol_Some in Hsym. apply elem_of_dom. eexists. exact Hsym.
    + intros Honly k Hk. destruct (Hkeys k Hk) as (cg_id & Hin & Hsym).
      pose proof (Honly items cg_id Hnet Hin) as Hreq.
      unfold cg_ids_of in Hreq. apply list_elem_of_omap in Hreq.
      destruct Hreq as (s & Hs & Hcg).
      apply id_to_symbol_Some in Hcg. rewrite Hcg in Hsym.
      injection Hsym as <-. exact Hs.
Qed.

(** C4: a response that is valid JSON but not of the expected shape, or whose
    bytes are not UTF-8, is not covered by the handler: the exception leaves
    [fetch_prices]. *)
Theorem fetch_prices_propagates (str_to_float : string -> option float) :
  fetch_prices str_to_float (fun _ => Ok (JList [])) ["BTC"] = Raise AttributeError
  /\ fetch_prices str_to_float (fun _ => Ok (JObj [("bitcoin", JNull)])) ["BTC"]
     = Raise TypeError
  /\ fetch_prices str_to_float (fun _ => Raise UnicodeDecodeError) ["BTC"]
     = Raise UnicodeDecodeError.
Proof. repeat split; vm_compute; reflexivity. Qed.

(** ** Holdings Loader *)

Lemma is_ok_map_result {A B : Type} (f : A -> result B) (l : list A) :
  is_ok (map_result f l) = forallb (fun x => is_ok (f x)) l.
Proof.
  induction l as [|x xs IH]; simpl; [reflexivity|].
  destruct (f x) as [y|e]; simpl; [|reflexivity].
  rewrite <- IH. destruct (map_result f xs); reflexivity.
Qed.

Lemma is_ok_normalize (str_to_float : string -> option float)
      (upper : string -> string) (a : json) :
  is_ok (normalize str_to_float upper a) = valid_record str_to_float a.
Proof.
  unfold normalize, valid_record.
  destruct a as [| | | | |l|d]; try reflexivity. simpl.
  destruct (obj_get d "symbol") as [s|]; [|reflexivity]. simpl.
  destruct s as [| | | |s| |];
    try (simpl; destruct (obj_get d "amount"); reflexivity).
  simpl.
  destruct (obj_get d "amount") as [x|]; [|reflexivity]. simpl.
  destruct (py_float str_to_float x) as [amt|e]; simpl.
  - destruct (obj_get d "buy_price_usd") as [y|]; [|reflexivity]. simpl.
    destruct (py_float str_to_float y); reflexivity.
  - destruct (obj_get d "buy_price_usd"); reflexivity.
Qed.

Lemma is_ok_load_portfolio (str_to_float : string -> option float)
      (upper : string -> string)
      (fs : string -> result json) (path : string) :
  is_ok (load_portfolio str_to_float upper fs path) =
  match fs path with
  | Ok data => loadable str_to_float data
  | Raise _ => false
  end.
Proof.
  unfold load_portfolio, loadable.
  destruct (fs path) as [data|e]; [|reflexivity]. simpl.
  destruct (py_iter data) as [items|e]; [|reflexivity]. simpl.
  rewrite is_ok_map_result.
  induction items as [|a items IH]; simpl; [reflexivity|].
  rewrite is_ok_normalize, IH. reflexivity.
Qed.

Lemma is_ok_false_Raise {A : Type} (r : result A) :
  is_ok r = false <-> exists e, r = Raise e.
Proof.
  destruct r as [a|e]; simpl; split.
  - discriminate.
  - intros [e He]. discriminate.
  - intros _. exists e. reflexivity.
  - reflexivity.
Qed.

Lemma normalize_normalizes (str_to_float : string -> option float)
      (upper : string -> string) (a : json) (h : Holding) :
  normalize str_to_float upper a = Ok h -> normalizes str_to_float upper a h.
Proof.
  unfold normalize, normalizes. intros H.
  destruct (py_getitem a "symbol") as [s|e]; simpl in H; [|discriminate].
  destruct s as [| | | |s| |]; simpl in H; try discriminate.
  destruct (py_getitem a "amount") as [x|e]; simpl in H; [|discriminate].
  destruct (py_float str_to_float x) as [amt|e] eqn:Hx; simpl in H; [|discriminate].
  destruct (py_getitem a "buy_price_usd") as [y|e]; simpl in H; [|discriminate].
  destruct (py_float str_to_float y) as [buy|e] eqn:Hy; simpl in H; [|discriminate].
  injection H as <-. exists s, x, y. simpl.
  repeat split; try reflexivity; assumption.
Qed.

(** C5, as the code has it: the loader raises exactly when reading or parsing
    the file raises, or the parsed value is not an iterable all of whose
    elements are objects with a string [symbol] and an [amount] and
    [buy_price_usd] that [float] converts; and a run of the loader that
    raises returns no list of holdings. *)
Theorem load_portfolio_raises_iff (str_to_float : string -> option float)
        (upper : string -> string)
        (fs : string -> result json) (path : string) :
  ((exists e, load_portfolio str_to_float upper fs path = Raise e)
   <-> (exists e, fs path = Raise e)
       \/ (exists data, fs path = Ok data /\ loadable str_to_float data = false))
  /\ ((exists pf, load_portfolio str_to_float upper fs path = Ok pf)
      <-> (exists data, fs path = Ok data /\ loadable str_to_float data = true))
  /\ (forall e, load_portfolio str_to_float upper fs path = Raise e ->
       forall pf, load_portfolio str_to_float upper fs path <> Ok pf).
Proof.
  pose proof (is_ok_load_portfolio str_to_float upper fs path) as Hok.
  split; [|split].
  - rewrite <- is_ok_false_Raise, Hok.
    destruct (fs path) as [data|e]; split.
    + intros H. right. exists data. split; [reflexivity | exact H].
    + intros [[e He] | (d & Hd & Hl)]; [discriminate|].
      injection Hd as <-. exact Hl.
    + intros _. left. exists e. reflexivity.
    + reflexivity.
  - destruct (load_portfolio str_to_float upper fs path) as [pf|e]; simpl in Hok;
      destruct (fs path) as [data|e']; split.
    + intros _. exists data. split; [reflexivity | symmetry; exact Hok].
    + intros _. exists pf. reflexivity.
    + discriminate.
    + intros (d & Hd & _). discriminate.
    + intros [pf H]. discriminate.
    + intros (d & Hd & Hl). injection Hd as <-. congruence.
    + intros [pf H]. discriminate.
    + intros (d & Hd & _). discriminate.
  - intros e He pf Hpf. rewrite He in Hpf. discriminate.
Qed.

(** C6, as the code has it: the holdings of a successful load are, in file
    order, the normal forms of the records of the file: the symbol is
    [upper] of the string symbol of the record (it may be empty), and the
    amount and buy price are the floats that [float] gives for the record's
    values; and a file with an element that is not a valid record (its
    symbol is missing or not a string, or its amount or price is missing or
    not converted by [float]) does not load. *)
Theorem loaded_holdings_normalized (str_to_float : string -> option float)
        (upper : string -> string)
        (fs : string -> result json) (path : string) :
  (forall pf,
     load_portfolio str_to_float upper fs path = Ok pf ->
     exists data items,
       fs path = Ok data
       /\ py_iter data = Ok items
       /\ Forall2 (normalizes str_to_float upper) items pf)
  /\ (forall data items a,
        fs path = Ok data ->
        py_iter data = Ok items ->
        a ∈ items ->
        valid_record str_to_float a = false ->
        exists e, load_portfolio str_to_float upper fs path = Raise e).
Proof.
  split.
  - unfold load_portfolio. intros pf H.
    destruct (fs path) as [data|e]; simpl in H; [|discriminate].
    destruct (py_iter data) as [items|e] eqn:Hitems; simpl in H; [|discriminate].
    exists data, items. split; [reflexivity|]. split; [exact Hitems|].
    apply map_result_Forall2 in H.
    eapply Forall2_impl; [exact H|].
    intros a h Hn. simpl in Hn. apply normalize_normalizes in Hn. exact Hn.
  - intros data items a Hfs Hitems Ha Hbad.
    apply is_ok_false_Raise. rewrite is_ok_load_portfolio, Hfs.
    unfold loadable. rewrite Hitems.
    destruct (forallb (valid_record str_to_float) items) eqn:Hall; [|reflexivity].
    rewrite forallb_forall in Hall. apply list_elem_of_In in Ha.
    rewrite (Hall a Ha) in Hbad. discriminate.
Qed.

(** ** Console output: printing in sequence *)

Lemma io_bind_lift {A B : Type} (a : A) (k : A -> io B) :
  io_bind (io_lift (Ok a)) k = k a.
Proof. unfold io_bind, io_lift. destruct (k a) as [out r]. reflexivity. Qed.

Lemma io_bind_ret_l {A B : Type} (a : A) (k : A -> io B) :
  io_bind (io_ret a) k = k a.
Proof. unfold io_bind, io_ret. destruct (k a) as [out r]. reflexivity. Qed.

Lemma io_bind_ret_r (m : io unit) : io_bind m (fun _ => io_ret tt) = m.
Proof.
  destruct m as [out [[]|e]]; simpl; [|reflexivity].
  rewrite app_nil_r. reflexivity.
Qed.

Lemma io_bind_assoc {A B C : Type} (m : io A) (f : A -> io B) (g : B -> io C) :
  io_bind (io_bind m f) g = io_bind m (fun a => io_bind (f a) g).
Proof.
  destruct m as [out [a|e]]; simpl; [|reflexivity].
  destruct (f a) as [out1 [b|e]]; simpl; [|reflexivity].
  destruct (g b) as [out2 r]. rewrite app_assoc. reflexivity.
Qed.

Lemma io_bind_ext {A B : Type} (m : io A) (k k' : A -> io B) :
  (forall a, k a = k' a) -> io_bind m k = io_bind m k'.
Proof.
  intros H. destruct m as [out [a|e]]; simpl; [|reflexivity].
  rewrite H. reflexivity.
Qed.

Lemma print_all_app (stdout_write : string -> result unit) (l1 l2 : list string) :
  print_all stdout_write (l1 ++ l2) =
  io_bind (print_all stdout_write l1) (fun _ => print_all stdout_write l2).
Proof.
  unfold print_all. induction l1 as [|x l1 IH]; cbn [app io_for].
  - rewrite io_bind_ret_l. reflexivity.
  - rewrite io_bind_assoc. apply io_bind_ext. intros _. exact IH.
Qed.

Lemma print_all_accepted (stdout_write : string -> result unit) (lines : list string) :
  Forall (accepts stdout_write) lines ->
  print_all stdout_write lines = (lines, Ok tt).
Proof.
  unfold print_all. induction 1 as [|x lines Hx _ IH]; simpl; [reflexivity|].
  unfold print at 1. rewrite Hx. simpl. rewrite IH. reflexivity.
Qed.

(** ** Orchestrator: a run over a non-empty portfolio *)

Lemma io_for_row (stdout_write : string -> result unit)
      (widths : list nat) (rows : list (list string)) :
  io_for (row stdout_write widths) rows =
  print_all stdout_write (map (row_text widths) rows).
Proof.
  unfold print_all. induction rows as [|r rows IH]; simpl; [reflexivity|].
  rewrite IH. reflexivity.
Qed.

(** [print_table] prints the lines of the table, one after the other. *)
Lemma print_table_lines (stdout_write : string -> result unit)
      (rows : list (list string)) (hs : list string) (widths : list nat) :
  col_w rows hs = Ok widths ->
  print_table stdout_write rows hs =
  print_all stdout_write (table_lines widths rows hs).
Proof.
  intros Hw. unfold print_table. rewrite Hw, io_bind_lift.
  unfold table_lines. cbn [app].
  change (print_all stdout_write (?a :: ?b :: ?c :: ?l))
    with (io_bind (print stdout_write a) (fun _ =>
          io_bind (print stdout_write b) (fun _ =>
          io_bind (print stdout_write c) (fun _ => print_all stdout_write l)))).
  unfold line at 1 2 3.
  do 3 (apply io_bind_ext; intros _).
  rewrite print_all_app, io_for_row.
  apply io_bind_ext. intros _.
  unfold print_all, line. cbn [io_for]. rewrite io_bind_ret_r. reflexivity.
Qed.

(** With at least one holding, a run prints the title, the table of the
    formatted rows and the three lines of totals, one after the other. *)
Lemma main_report (str_to_float : string -> option float)
      (format_float : string -> float -> string)
      (upper : string -> string) (stdout_write : string -> result unit)
      (fs net : string -> result json)
      (pf : list Holding) (live : gmap string float) :
  load_portfolio str_to_float upper fs PORTFOLIO_FILE = Ok pf ->
  pf <> [] ->
  fetch_prices str_to_float net (sorted_set (map symbol pf)) = Ok live ->
  exists rs widths,
    map_result (compute_row live) pf = Ok rs
    /\ col_w (map (format_row format_float) rs) headers = Ok widths
    /\ main str_to_float format_float upper stdout_write fs net =
       print_all stdout_write (report_lines format_float widths rs).
Proof.
  intros Hload Hne Hfetch.
  destruct (compute_rows_total live pf) as [rs [Hrs Hlen]].
  assert (Hw : exists widths, col_w (map (format_row format_float) rs) headers = Ok widths).
  { eexists. apply col_w_computes.
    - destruct rs as [|r rs]; [|discriminate].
      destruct pf; [contradiction | discriminate].
    - apply Forall_forall. intros r Hr.
      apply list_elem_of_In, in_map_iff in Hr. destruct Hr as (x & <- & _).
      simpl. lia. }
  destruct Hw as [widths Hw].
  exists rs, widths. split; [exact Hrs|]. split; [exact Hw|].
  unfold main. rewrite Hload, io_bind_lift. cbv zeta.
  rewrite Hfetch, io_bind_lift.
  rewrite (main_loop_rows _ _ _ rs Hrs), io_bind_lift.
  unfold report_lines.
  change (print_all stdout_write (title :: ?l))
    with (io_bind (print stdout_write title) (fun _ => print_all stdout_write l)).
  apply io_bind_ext. intros _.
  rewrite print_all_app, (print_table_lines _ _ _ widths Hw).
  apply io_bind_ext. intros _.
  unfold totals. rewrite pct_guarded. simpl rbind. rewrite io_bind_lift.
  unfold total_lines, print_all. simpl io_for.
  do 2 (apply io_bind_ext; intros _).
  rewrite io_bind_ret_r. reflexivity.
Qed.

(** * The properties at concrete inputs *)

(** ** The example scenario *)

Example scenario_loads :
  load_portfolio no_text_floats ascii_upper scenario_fs PORTFOLIO_FILE = Ok scenario_pf.
Proof. vm_compute. reflexivity. Qed.

Example scenario_fetch :
  fetch_prices no_text_floats scenario_net (sorted_set (map symbol scenario_pf))
  = Ok scenario_live.
Proof. vm_compute. reflexivity. Qed.

Example scenario_rows :
  map_result (compute_row scenario_live) scenario_pf
  = Ok [mkRow "BTC" 0.5 20000 30000 10000 15000 5000 50;
        mkRow "ETH" 2 1500 1500 3000 3000 0 0].
Proof. vm_compute. reflexivity. Qed.

Example scenario_totals :
  exists rows,
    main_loop show_spec scenario_live scenario_pf = Ok (rows, 13000%float, 18000%float)
    /\ totals 13000 18000 = Ok (5000%float, 0x1.33b13b13b13b2p+5%float).
Proof. eexists. split; vm_compute; reflexivity. Qed.

Example zero_amount_row :
  compute_row ∅ (mkHolding "BTC" 0 20000) = Ok (mkRow "BTC" 0 20000 20000 0 0 0 0).
Proof. vm_compute. reflexivity. Qed.

Example sample_widths : col_w sample_rows sample_headers = Ok [4; 3].
Proof. reflexivity. Qed.

(** The whole run on the scenario, each number shown as its format
    specification. *)
Example scenario_report :
  main no_text_floats show_spec ascii_upper utf8_stdout scenario_fs scenario_net =
  ([ title;
     "+=======+========+=========+===========+=======+=======+=======+=======+";
     "| Asset | Amount | Buy/USD | Price/USD | Cost  | Value | PnL   | PnL%  |";
     "+=======+========+=========+===========+=======+=======+=======+=======+";
     "| BTC   | g      | $,.2f   | $,.2f     | $,.2f | $,.2f | $,.2f | +.2f% |";
     "| ETH   | g      | $,.2f   | $,.2f     | $,.2f | $,.2f | $,.2f | +.2f% |";
     "+=======+========+=========+===========+=======+=======+=======+=======+";
     "Total Cost : $,.2f";
     "Total Value: $,.2f";
     ("Total PnL  : $,.2f  (+.2f%)" ++ nl)%string ],
   Ok tt).
Proof. vm_compute. reflexivity. Qed.

(** The failures named by the handler, and a request with no known ticker,
    give the empty mapping. *)
Example fetch_failures_give_empty :
  fetch_prices no_text_floats (fun _ => Raise URLError) ["BTC"] = Ok ∅
  /\ fetch_prices no_text_floats (fun _ => Raise TimeoutError) ["BTC"] = Ok ∅
  /\ fetch_prices no_text_floats (fun _ => Raise JSONDecodeError) ["BTC"] = Ok ∅
  /\ fetch_prices no_text_floats generous_net ["XXX"] = Ok ∅.
Proof. repeat split; vm_compute; reflexivity. Qed.

(** Values that are not of the expected shape, in the loader. *)
Example loader_edge_cases :
  load_portfolio no_text_floats ascii_upper (fun _ => Raise FileNotFoundError) PORTFOLIO_FILE
  = Raise FileNotFoundError
  /\ load_portfolio no_text_floats ascii_upper (fun _ => Raise JSONDecodeError) PORTFOLIO_FILE
     = Raise JSONDecodeError
  /\ load_portfolio no_text_floats ascii_upper (fun _ => Ok (JInt 5)) PORTFOLIO_FILE = Raise TypeError
  /\ load_portfolio no_text_floats ascii_upper (fun _ => Ok (JObj [])) PORTFOLIO_FILE = Ok []
  /\ load_portfolio no_text_floats ascii_upper
       (fun _ => Ok (JList [JObj [("symbol", JStr "btc"); ("amount", JInt 1)]]))
       PORTFOLIO_FILE = Raise KeyError
  /\ load_portfolio no_text_floats ascii_upper
       (fun _ => Ok (JList [record (JStr "btc") JNull (JInt 1)])) PORTFOLIO_FILE
     = Raise TypeError
  /\ load_portfolio no_text_floats ascii_upper
       (fun _ => Ok (JList [record (JStr "btc") (JStr "much") (JInt 1)])) PORTFOLIO_FILE
     = Raise ValueError
  /\ load_portfolio no_text_floats ascii_upper
       (fun _ => Ok (JList [record (JStr "btc") (JBool true) (JInt 1)])) PORTFOLIO_FILE
     = Ok [mkHolding "BTC" 1 1].
Proof. repeat split; vm_compute; reflexivity. Qed.

(** On a console that cannot take the title the same run ends at once, with
    the exception of the console and nothing printed. *)
Example scenario_report_refused :
  main no_text_floats show_spec ascii_upper plain_stdout scenario_fs scenario_net =
  ([], Raise UnicodeEncodeError).
Proof. vm_compute. reflexivity. Qed.

(** ** Witnesses and counterexamples *)

Lemma resolved_price_live_or_buy_witness :
  (exists r, compute_row scenario_live (mkHolding "BTC" 0.5 20000) = Ok r
     /\ row_price r = 30000%float)
  /\ (exists r, compute_row scenario_live (mkHolding "ETH" 2 1500) = Ok r
        /\ row_price r = 1500%float).
Proof.
  split.
  - destruct (proj1 (resolved_price_live_or_buy scenario_live (mkHolding "BTC" 0.5 20000)))
      as (r & Hr & Hlive & _).
    exists r. split; [exact Hr|]. apply Hlive. reflexivity.
  - destruct (proj1 (resolved_price_live_or_buy scenario_live (mkHolding "ETH" 2 1500)))
      as (r & Hr & _ & Hbuy).
    exists r. split; [exact Hr|]. apply Hbuy.
    apply not_elem_of_dom. reflexivity.
Defined.

Lemma pnl_pct_zero_cost_guard_witness :
  (0 * 20000 =? 0)%float = true
  /\ (exists r, compute_row scenario_live (mkHolding "BTC" 0 20000) = Ok r
        /\ row_pnl_pct r = 0%float)
  /\ totals 0 0 = Ok ((0 - 0)%float, 0%float).
Proof.
  destruct (pnl_pct_zero_cost_guard scenario_live (mkHolding "BTC" 0 20000) 0 0 0 0)
    as (Hrow & Htot & _).
  split; [reflexivity|]. split; [apply Hrow | apply Htot]; reflexivity.
Defined.

(** C3 as stated fails: asked for BTC alone, [fetch_prices] also returns a
    price for ETH when the response holds one. *)
Lemma fetch_returns_unrequested_symbol :
  exists prices,
    fetch_prices no_text_floats generous_net ["BTC"] = Ok prices
    /\ prices !! "ETH" = Some 2000%float
    /\ "ETH" ∉ ["BTC"].
Proof.
  exists {["BTC" := 30000%float; "ETH" := 2000%float]}.
  split; [vm_compute; reflexivity|]. split; [reflexivity|].
  intros H. apply list_elem_of_singleton in H. discriminate.
Defined.

Lemma fetched_keys_in_table_witness :
  fetch_prices no_text_floats scenario_net ["BTC"; "ETH"] = Ok scenario_live
  /\ (forall k, k ∈ dom scenario_live -> k ∈ dom CG_IDS)
  /\ (forall k, k ∈ dom scenario_live -> k ∈ ["BTC"; "ETH"]).
Proof.
  assert (H : fetch_prices no_text_floats scenario_net ["BTC"; "ETH"] = Ok scenario_live)
    by (vm_compute; reflexivity).
  destruct (fetched_keys_in_table no_text_floats scenario_net ["BTC"; "ETH"]
              scenario_live H) as [Htable Hreq].
  split; [exact H|]. split; [exact Htable|]. apply Hreq.
  intros items cg_id Hnet Hin. injection Hnet as <-. simpl in Hin.
  apply list_elem_of_singleton in Hin. subst cg_id.
  apply list_elem_of_here.
Defined.

(** C5 as stated fails: the loader raises on a file that is valid JSON and
    whose record has the three fields, with numbers for amount and price. *)
Lemma load_raises_outside_stated_conditions :
  load_portfolio no_text_floats ascii_upper numeric_symbol_fs PORTFOLIO_FILE = Raise AttributeError
  /\ stated_load_failure no_text_floats (numeric_symbol_fs PORTFOLIO_FILE) = false.
Proof. split; vm_compute; reflexivity. Defined.

(** C6 as stated fails: a record with an empty symbol string loads, and
    gives a holding with an empty symbol. *)
Lemma load_accepts_empty_symbol :
  load_portfolio no_text_floats ascii_upper empty_symbol_fs PORTFOLIO_FILE = Ok [mkHolding "" 1 1]
  /\ symbol (mkHolding "" 1 1) = "".
Proof. split; vm_compute; reflexivity. Defined.

Lemma loaded_holdings_normalized_witness :
  load_portfolio no_text_floats ascii_upper scenario_fs PORTFOLIO_FILE = Ok scenario_pf
  /\ exists data items,
       scenario_fs PORTFOLIO_FILE = Ok data
       /\ py_iter data = Ok items
       /\ Forall2 (normalizes no_text_floats ascii_upper) items scenario_pf.
Proof.
  assert (H : load_portfolio no_text_floats ascii_upper scenario_fs PORTFOLIO_FILE = Ok scenario_pf)
    by (vm_compute; reflexivity).
  split; [exact H|].
  exact (proj1 (loaded_holdings_normalized no_text_floats ascii_upper scenario_fs
                  PORTFOLIO_FILE) scenario_pf H).
Defined.

(** C9 as stated fails: a row with fewer cells than there are headers makes
    the width computation raise. *)
Lemma col_w_short_row_raises :
  col_w [["a"]] ["x"; "y"] = Raise IndexError.
Proof. reflexivity. Defined.

Lemma col_w_is_max_witness :
  exists widths,
    col_w sample_rows sample_headers = Ok widths
    /\ length widths = length sample_headers
    /\ forall i h, sample_headers !! i = Some h ->
         exists w, widths !! i = Some w
           /\ w = Nat.max (String.length h) (longest sample_rows i)
           /\ String.length h <= w
           /\ forall r c, r ∈ sample_rows -> r !! i = Some c -> String.length c <= w.
Proof.
  apply (col_w_is_max sample_rows sample_headers).
  - discriminate.
  - repeat constructor; simpl; lia.
Defined.

Lemma empty_rows_raise_witness :
  load_portfolio no_text_floats ascii_upper empty_fs PORTFOLIO_FILE = Ok []
  /\ main no_text_floats show_spec ascii_upper utf8_stdout empty_fs scenario_net = ([title], Raise TypeError).
Proof.
  split; [reflexivity|].
  exact (proj2 (proj2 (empty_rows_raise no_text_floats show_spec ascii_upper utf8_stdout
                         empty_fs scenario_net eq_refl))).
Defined.

(** * Further properties of the code *)

(** ** Price Fetcher: requests and failures *)

Lemma cg_ids_of_unknown (symbols : list string) :
  (forall s, s ∈ symbols -> s ∉ dom CG_IDS) -> cg_ids_of symbols = [].
Proof.
  induction symbols as [|s symbols IH]; intros H; [reflexivity|].
  unfold cg_ids_of. simpl.
  assert (Hs : CG_IDS !! s = None).
  { apply not_elem_of_dom. apply H. left. }
  rewrite Hs. apply IH. intros s' Hs'. apply H. right. exact Hs'.
Qed.

(** X1: when none of the requested symbols is a ticker of [CG_IDS],
    [fetch_prices] returns the empty mapping whatever the network would
    answer; and in every case the network is consulted through the one URL
    built from the known identifiers, so two networks that agree on that URL
    give the same result. *)
Theorem fetch_without_known_symbols (str_to_float : string -> option float)
        (net net' : string -> result json) (symbols : list string) :
  ((forall s, s ∈ symbols -> s ∉ dom CG_IDS) ->
     fetch_prices str_to_float net symbols = Ok ∅)
  /\ (net (price_url (cg_ids_of symbols)) = net' (price_url (cg_ids_of symbols)) ->
        fetch_prices str_to_float net symbols = fetch_prices str_to_float net' symbols).
Proof.
  split.
  - intros H. unfold fetch_prices. rewrite (cg_ids_of_unknown symbols H). reflexivity.
  - intros H. unfold fetch_prices. destruct (cg_ids_of symbols); [reflexivity|].
    rewrite H. reflexivity.
Qed.

Lemma fold_result_Raise {S A : Type} (f : S -> A -> result S) (l : list A) (s : S) (e : exn) :
  fold_result f l s = Raise e -> exists s0 x, x ∈ l /\ f s0 x = Raise e.
Proof.
  revert s. induction l as [|x xs IH]; intros s H; simpl in H; [discriminate|].
  destruct (f s x) as [s1|e1] eqn:Hx; simpl in H.
  - destruct (IH s1 H) as (s0 & y & Hy & Hf).
    exists s0, y. split; [right; exact Hy | exact Hf].
  - injection H as ->. exists s, x. split; [left | exact Hx].
Qed.

Lemma py_float_raises (str_to_float : string -> option float) (v : json) (e : exn) :
  py_float str_to_float v = Raise e ->
  e = TypeError \/ e = ValueError \/ e = OverflowError.
Proof.
  destruct v as [| b | z | f | s | l | d]; simpl; intros H; try discriminate.
  - injection H as <-. left. reflexivity.
  - destruct (is_infinity (float_of_Z z)); [|discriminate].
    injection H as <-. right. right. reflexivity.
  - destruct (str_to_float s); [discriminate|].
    injection H as <-. right. left. reflexivity.
  - injection H as <-. left. reflexivity.
  - injection H as <-. left. reflexivity.
Qed.

Lemma price_entry_raises (str_to_float : string -> option float)
      (prices : gmap string float) (item : string * json) (e : exn) :
  price_entry str_to_float prices item = Raise e ->
  e = TypeError \/ e = ValueError \/ e = OverflowError.
Proof.
  destruct item as [cg_id payload]. unfold price_entry. intros H.
  destruct (id_to_symbol !! cg_id) as [sym|]; [|discriminate].
  destruct (negb (String.eqb sym "")); [|discriminate].
  destruct payload as [| b | z | f | s | l | d]; simpl in H;
    try (injection H as <-; left; reflexivity).
  - destruct (index 0 "usd" s); simpl in H; [|discriminate].
    injection H as <-. left. reflexivity.
  - destruct (existsb _ l); simpl in H; [|discriminate].
    injection H as <-. left. reflexivity.
  - destruct (obj_get d "usd") as [v|]; simpl in H; [|discriminate].
    destruct (py_float str_to_float v) as [x|e'] eqn:Hv; simpl in H; [discriminate|].
    injection H as <-. exact (py_float_raises _ _ _ Hv).
Qed.

(** X2: an exception that leaves [fetch_prices] is never one of the three
    named by its handler: it is either an exception of the request that the
    handler does not name, or [AttributeError], [TypeError], [ValueError] or
    [OverflowError] raised while the parsed response is read. *)
Theorem fetch_raises_only_uncaught (str_to_float : string -> option float)
        (net : string -> result json) (symbols : list string) (e : exn) :
  fetch_prices str_to_float net symbols = Raise e ->
  caught e = false
  /\ (net (price_url (cg_ids_of symbols)) = Raise e
      \/ e = AttributeError \/ e = TypeError \/ e = ValueError \/ e = OverflowError).
Proof.
  unfold fetch_prices. intros H.
  destruct (cg_ids_of symbols) as [|i ids]; [discriminate|].
  destruct (net (price_url (i :: ids))) as [data|e0].
  - assert (He : e = AttributeError \/ e = TypeError \/ e = ValueError \/ e = OverflowError).
    { destruct data as [| b | z | f | s | l | d]; simpl in H;
        try (injection H as <-; left; reflexivity).
      apply fold_result_Raise in H. destruct H as (p & item & _ & H).
      right. exact (price_entry_raises _ _ _ _ H). }
    split; [|right; exact He].
    destruct He as [-> | [-> | [-> | ->]]]; reflexivity.
  - destruct (caught e0) eqn:Hc; [discriminate|].
    injection H as <-. split; [exact Hc | left; reflexivity].
Qed.

(** ** Price Fetcher: the prices that are returned *)

Lemma id_to_symbol_nonempty (cg_id sym : string) :
  id_to_symbol !! cg_id = Some sym -> String.eqb sym "" = false.
Proof.
  intros H. apply id_to_symbol_Some in H.
  destruct (String.eqb_spec sym "") as [-> | _]; [|reflexivity].
  vm_compute in H. discriminate.
Qed.

Lemma price_entry_lookup (str_to_float : string -> option float)
      (p p' : gmap string float) (item : string * json) :
  price_entry str_to_float p item = Ok p' ->
  forall sym f,
    p' !! sym = Some f <->
    quotes str_to_float item sym f
    \/ (p !! sym = Some f /\ forall f', ~ quotes str_to_float item sym f').
Proof.
  destruct item as [cg_id payload]. unfold price_entry, quotes. simpl. intros H sym f.
  destruct (id_to_symbol !! cg_id) as [s0|] eqn:Hid.
  - rewrite (id_to_symbol_nonempty _ _ Hid) in H. simpl in H.
    apply id_to_symbol_Some in Hid.
    destruct (py_contains "usd" payload) as [[|]|e]; simpl in H; [| |discriminate].
    + destruct (py_getitem payload "usd") as [v|e]; simpl in H; [|discriminate].
      destruct (py_float str_to_float v) as [f0|e] eqn:Hv; simpl in H; [|discriminate].
      injection H as <-.
      destruct (decide (s0 = sym)) as [-> | Hne].
      * rewrite lookup_insert_eq. split.
        -- intros [= <-]. left. split; [exact Hid|]. split; [reflexivity|].
           exists v. split; [reflexivity | exact Hv].
        -- intros [(_ & _ & v' & [= <-] & Hv') | [_ Hno]].
           ++ congruence.
           ++ exfalso. apply (Hno f0). split; [exact Hid|]. split; [reflexivity|].
              exists v. split; [reflexivity | exact Hv].
      * rewrite lookup_insert_ne by exact Hne. split.
        -- intros Hp. right. split; [exact Hp|].
           intros f' (Hid' & _). apply Hne.
           apply id_to_symbol_Some in Hid, Hid'. congruence.
        -- intros [(Hid' & _) | [Hp _]]; [|exact Hp].
           exfalso. apply Hne. apply id_to_symbol_Some in Hid, Hid'. congruence.
    + injection H as <-. split.
      * intros Hp. right. split; [exact Hp|]. intros f' (_ & Hc & _). discriminate.
      * intros [(_ & Hc & _) | [Hp _]]; [discriminate | exact Hp].
  - injection H as <-. split.
    + intros Hp. right. split; [exact Hp|].
      intros f' (Hid' & _). apply id_to_symbol_Some in Hid'. congruence.
    + intros [(Hid' & _) | [Hp _]]; [|exact Hp].
      apply id_to_symbol_Some in Hid'. congruence.
Qed.

Lemma price_loop_lookup (str_to_float : string -> option float)
      (items : list (string * json)) (p0 p : gmap string float) :
  NoDup items.*1 ->
  fold_result (price_entry str_to_float) items p0 = Ok p ->
  forall sym f,
    p !! sym = Some f <->
    (exists item, item ∈ items /\ quotes str_to_float item sym f)
    \/ (p0 !! sym = Some f
        /\ forall item f', item ∈ items -> ~ quotes str_to_float item sym f').
Proof.
  revert p0. induction items as [|it rest IH]; intros p0 Hnd H sym f; simpl in H.
  - injection H as <-. split.
    + intros Hp. right. split; [exact Hp|]. intros item f' Hin. inversion Hin.
    + intros [(item & Hin & _) | [Hp _]]; [inversion Hin | exact Hp].
  - destruct (price_entry str_to_float p0 it) as [p1|e] eqn:Hstep; simpl in H;
      [|discriminate].
    rewrite fmap_cons in Hnd. apply NoDup_cons in Hnd. destruct Hnd as [Hfresh Hnd].
    pose proof (price_entry_lookup _ _ _ _ Hstep sym) as Hone.
    pose proof (IH p1 Hnd H sym) as Hrest.
    assert (Hclash : forall f1 item f2,
               quotes str_to_float it sym f1 -> item ∈ rest ->
               ~ quotes str_to_float item sym f2).
    { intros f1 item f2 (Hid1 & _) Hin (Hid2 & _). apply Hfresh.
      assert (Heq : it.1 = item.1) by congruence.
      rewrite Heq. apply (list_elem_of_fmap_2 fst). exact Hin. }
    split.
    + intros Hp. apply Hrest in Hp.
      destruct Hp as [(item & Hin & Hq) | [Hp1 Hno]].
      * left. exists item. split; [right; exact Hin | exact Hq].
      * apply Hone in Hp1. destruct Hp1 as [Hq | [Hp0 Hno1]].
        -- left. exists it. split; [left | exact Hq].
        -- right. split; [exact Hp0|]. intros item f' Hin.
           apply elem_of_cons in Hin. destruct Hin as [-> | Hin];
             [apply Hno1 | apply Hno; exact Hin].
    + intros [(item & Hin & Hq) | [Hp0 Hno]].
      * apply elem_of_cons in Hin. destruct Hin as [-> | Hin].
        -- apply Hrest. right. split.
           ++ apply Hone. left. exact Hq.
           ++ intros item f' Hin. exact (Hclash f item f' Hq Hin).
        -- apply Hrest. left. exists item. split; [exact Hin | exact Hq].
      * apply Hrest. right. split.
        -- apply Hone. right. split; [exact Hp0|].
           intros f'. apply (Hno it f'). left.
        -- intros item f' Hin. apply Hno. right. exact Hin.
Qed.

(** X3: when some requested symbol is known and the response is a mapping
    (with distinct identifiers) that [fetch_prices] reads without raising,
    the returned mapping holds the price [f] for the ticker [sym] exactly
    when an item of the response quotes [f] for [sym]: its identifier is the
    one of [sym] in [CG_IDS], its payload contains ["usd"], and [float] of
    that value is [f]. *)
Theorem fetch_prices_lookup (str_to_float : string -> option float)
        (net : string -> result json) (symbols : list string)
        (items : list (string * json)) (prices : gmap string float) :
  cg_ids_of symbols <> [] ->
  net (price_url (cg_ids_of symbols)) = Ok (JObj items) ->
  NoDup items.*1 ->
  fetch_prices str_to_float net symbols = Ok prices ->
  forall sym f,
    prices !! sym = Some f <->
    exists item, item ∈ items /\ quotes str_to_float item sym f.
Proof.
  intros Hids Hnet Hnd H sym f. unfold fetch_prices in H.
  destruct (cg_ids_of symbols) as [|i ids]; [contradiction|].
  rewrite Hnet in H. simpl in H.
  rewrite (price_loop_lookup _ _ _ _ Hnd H sym f). split.
  - intros [Hq | [Hp _]]; [exact Hq|]. rewrite lookup_empty in Hp. discriminate.
  - intros Hq. left. exact Hq.
Qed.

(** ** Table Renderer: when it raises and what it prints *)

Lemma map_result_Raise {A B : Type} (f : A -> result B) (l : list A) (e : exn) :
  map_result f l = Raise e -> exists x, x ∈ l /\ f x = Raise e.
Proof.
  induction l as [|x xs IH]; simpl; intros H; [discriminate|].
  destruct (f x) as [y|e1] eqn:Hx; simpl in H.
  - destruct (map_result f xs) as [ys|e2]; simpl in H; [discriminate|].
    injection H as ->. destruct (IH eq_refl) as (z & Hz & Hf).
    exists z. split; [right; exact Hz | exact Hf].
  - injection H as ->. exists x. split; [left | exact Hx].
Qed.

Lemma map_result_uniform_Raise {A B : Type} (f : A -> result B) (l : list A) (e : exn) :
  (forall x, x ∈ l -> f x = Raise e \/ exists y, f x = Ok y) ->
  (exists x, x ∈ l /\ f x = Raise e) ->
  map_result f l = Raise e.
Proof.
  intros Hall (x & Hx & Hfx).
  destruct (map_result f l) as [ys|e'] eqn:Hm.
  - apply map_result_Forall2 in Hm.
    apply list_elem_of_lookup in Hx. destruct Hx as [i Hi].
    destruct (Forall2_lookup_l _ _ _ _ _ Hm Hi) as (y & _ & Hy).
    simpl in Hy. congruence.
  - apply map_result_Raise in Hm. destruct Hm as (z & Hz & Hfz).
    destruct (Hall z Hz) as [H | [y H]]; congruence.
Qed.

Lemma py_index_outcome (r : list string) (i : nat) :
  (i < length r -> py_index r i = Ok (cell r i))
  /\ (length r <= i -> py_index r i = Raise IndexError).
Proof.
  split; [apply py_index_cell|].
  intros Hi. unfold py_index. rewrite (lookup_ge_None_2 r i Hi). reflexivity.
Qed.

Lemma col_width_outcome (rows : list (list string)) (ih : nat * string) :
  rows <> [] ->
  col_width rows ih = Raise IndexError \/ exists w, col_width rows ih = Ok w.
Proof.
  intros Hne. destruct ih as [i h]. unfold col_width.
  destruct (map_result _ rows) as [lens|e] eqn:Hm; simpl.
  - right. apply map_result_Forall2, Forall2_length in Hm.
    destruct lens as [|n lens]; [|eexists; reflexivity].
    destruct rows; [contradiction | discriminate].
  - left. apply map_result_Raise in Hm. destruct Hm as (r & _ & Hr).
    destruct (le_lt_dec (length r) i) as [Hi | Hi].
    + rewrite (proj2 (py_index_outcome r i) Hi) in Hr. simpl in Hr. congruence.
    + rewrite (proj1 (py_index_outcome r i) Hi) in Hr. discriminate.
Qed.

Lemma col_w_short_row (rows : list (list string)) (hs : list string) (r : list string) :
  r ∈ rows -> length r < length hs -> col_w rows hs = Raise IndexError.
Proof.
  intros Hr Hshort.
  assert (Hne : rows <> []) by (intros ->; inversion Hr).
  unfold col_w. apply map_result_uniform_Raise.
  - intros ih _. apply col_width_outcome. exact Hne.
  - destruct (lookup_lt_is_Some_2 hs (length r) Hshort) as [h Hh].
    exists (length r, h). split.
    + unfold enumerate. apply elem_of_lookup_imap. exists (length r), h.
      split; [reflexivity | exact Hh].
    + unfold col_width.
      rewrite (map_result_uniform_Raise _ rows IndexError); [reflexivity| |].
      * intros r' _. destruct (le_lt_dec (length r') (length r)) as [Hi | Hi].
        -- left. rewrite (proj2 (py_index_outcome r' _) Hi). reflexivity.
        -- right. rewrite (proj1 (py_index_outcome r' _) Hi). eexists. reflexivity.
      * exists r. split; [exact Hr|].
        rewrite (proj2 (py_index_outcome r _) (Nat.le_refl _)). reflexivity.
Qed.

(** X4: the widths are computed exactly when there is no header, or there is
    at least one row and no row has fewer cells than there are headers.
    Otherwise [col_w] raises [TypeError] when there is no row and
    [IndexError] when some row is too short, and [print_table] then prints
    nothing before the exception. *)
Theorem col_w_outcomes (stdout_write : string -> result unit)
        (rows : list (list string)) (hs : list string) :
  (is_ok (col_w rows hs) = true
   <-> hs = [] \/ (rows <> [] /\ Forall (fun r => length hs <= length r) rows))
  /\ (hs <> [] -> rows = [] -> col_w rows hs = Raise TypeError)
  /\ (forall r, r ∈ rows -> length r < length hs -> col_w rows hs = Raise IndexError)
  /\ (forall e, col_w rows hs = Raise e ->
        print_table stdout_write rows hs = ([], Raise e)).
Proof.
  assert (Hempty : hs <> [] -> rows = [] -> col_w rows hs = Raise TypeError).
  { intros Hhs ->. destruct hs as [|h hs]; [contradiction | reflexivity]. }
  split; [|split; [exact Hempty | split]].
  - split.
    + intros Hok. destruct hs as [|h hs]; [left; reflexivity | right].
      destruct rows as [|r0 rows].
      * rewrite Hempty in Hok by (reflexivity || discriminate). discriminate.
      * split; [discriminate|]. apply Forall_forall. intros r Hr.
        destruct (le_lt_dec (length (h :: hs)) (length r)) as [Hle | Hlt]; [exact Hle|].
        rewrite (col_w_short_row _ _ r Hr Hlt) in Hok. discriminate.
    + intros [-> | [Hne Hall]]; [reflexivity|].
      rewrite (col_w_computes rows hs Hne Hall). reflexivity.
  - intros r. apply col_w_short_row.
  - intros e He. unfold print_table. rewrite He. reflexivity.
Qed.

Lemma length_append (s1 s2 : string) :
  String.length (s1 ++ s2) = String.length s1 + String.length s2.
Proof. induction s1 as [|c s1 IH]; simpl; [reflexivity | rewrite IH; reflexivity]. Qed.

Lemma repeat_str_length (c : string) (n : nat) :
  String.length (repeat_str c n) = n * String.length c.
Proof.
  induction n as [|n IH]; simpl; [reflexivity|].
  rewrite length_append, IH. reflexivity.
Qed.

Lemma ljust_length (s : string) (w : nat) :
  String.length (ljust s w) = Nat.max (String.length s) w.
Proof.
  unfold ljust. rewrite length_append, repeat_str_length. simpl. lia.
Qed.

Lemma concat_length (sep : string) (cells : list string) :
  cells <> [] ->
  String.length (String.concat sep cells) + String.length sep =
  sum_list_with (fun c => String.length c + String.length sep) cells.
Proof.
  induction cells as [|c cells IH]; intros Hne; [contradiction|].
  destruct cells as [|c' cells].
  - simpl. lia.
  - change (String.concat sep (c :: c' :: cells))
      with (c ++ sep ++ String.concat sep (c' :: cells))%string.
    rewrite !length_append.
    change (sum_list_with ?f (c :: ?l)) with (f c + sum_list_with f l).
    rewrite <- IH by discriminate. lia.
Qed.

Lemma line_text_length (widths : list nat) (char : string) :
  widths <> [] -> String.length char = 1 ->
  String.length (line_text widths char) = table_width widths.
Proof.
  intros Hne Hc. unfold line_text, table_width.
  rewrite !length_append.
  pose proof (concat_length "+" (map (fun w => repeat_str char (w + 2)) widths)) as Hcat.
  assert (Hsum : sum_list_with (fun c => String.length c + String.length "+")
                   (map (fun w => repeat_str char (w + 2)) widths)
                 = sum_list_with (fun w => w + 3) widths).
  { clear Hcat Hne. induction widths as [|w widths IH]; [reflexivity|].
    cbn [map sum_list_with]. rewrite IH, repeat_str_length, Hc. simpl. lia. }
  rewrite Hsum in Hcat. simpl in Hcat |- *.
  assert (Hne' : map (fun w => repeat_str char (w + 2)) widths <> [])
    by (destruct widths; [contradiction | discriminate]).
  specialize (Hcat Hne'). lia.
Qed.

(** A row fits the widths: it has a cell for every width, no longer than it. *)
Lemma padded_cells_lengths (widths : list nat) (items : list string) :
  length widths <= length items ->
  (forall i it w, items !! i = Some it -> widths !! i = Some w -> String.length it <= w) ->
  map String.length (map (fun iw => ljust (fst iw) (snd iw)) (combine items widths))
  = widths.
Proof.
  revert items. induction widths as [|w widths IH]; intros items Hlen Hfit.
  - destruct items; reflexivity.
  - destruct items as [|it items]; simpl in Hlen; [lia|]. simpl.
    rewrite ljust_length.
    pose proof (Hfit 0 it w eq_refl eq_refl) as H0.
    rewrite IH.
    + f_equal. lia.
    + lia.
    + intros i it' w' Hi Hw. exact (Hfit (S i) it' w' Hi Hw).
Qed.

Lemma row_text_length (widths : list nat) (items : list string) :
  widths <> [] ->
  length widths <= length items ->
  (forall i it w, items !! i = Some it -> widths !! i = Some w -> String.length it <= w) ->
  String.length (row_text widths items) = table_width widths.
Proof.
  intros Hne Hlen Hfit. unfold row_text, table_width.
  rewrite !length_append.
  set (cells := map (fun iw => ljust (fst iw) (snd iw)) (combine items widths)).
  pose proof (padded_cells_lengths widths items Hlen Hfit) as Hcells.
  fold cells in Hcells.
  assert (Hne' : cells <> []).
  { intros Heq. rewrite Heq in Hcells. simpl in Hcells. congruence. }
  pose proof (concat_length " | " cells Hne') as Hcat.
  assert (Hsum : sum_list_with (fun c => String.length c + String.length " | ") cells
                 = sum_list_with (fun w => w + 3) widths).
  { rewrite <- Hcells. clear. induction cells as [|c cells IH]; simpl; [reflexivity|].
    simpl in IH. rewrite IH. reflexivity. }
  rewrite Hsum in Hcat. simpl in Hcat |- *. lia.
Qed.

Lemma col_w_fits (rows : list (list string)) (hs : list string) :
  rows <> [] ->
  Forall (fun r => length hs <= length r) rows ->
  exists widths,
    col_w rows hs = Ok widths
    /\ length widths = length hs
    /\ (forall i h w, hs !! i = Some h -> widths !! i = Some w -> String.length h <= w)
    /\ (forall r i c w, r ∈ rows -> r !! i = Some c -> widths !! i = Some w ->
          String.length c <= w).
Proof.
  intros Hne Hall. eexists. split; [apply col_w_computes; assumption|].
  assert (Hw : forall i w,
             map (fun ih => Nat.max (String.length (snd ih)) (longest rows (fst ih)))
                 (enumerate hs) !! i = Some w ->
             exists h, hs !! i = Some h
                       /\ w = Nat.max (String.length h) (longest rows i)).
  { intros i w. change (map ?f ?l) with (f <$> l).
    rewrite list_lookup_fmap. unfold enumerate. rewrite list_lookup_imap.
    destruct (hs !! i) as [h|]; simpl; [|discriminate].
    intros [= <-]. exists h. split; reflexivity. }
  split; [|split].
  - rewrite length_map. unfold enumerate. apply length_imap.
  - intros i h w Hh Hwi. destruct (Hw i w Hwi) as (h' & Hh' & ->).
    assert (h' = h) by congruence. subst h'. lia.
  - intros r i c w Hr Hc Hwi. destruct (Hw i w Hwi) as (h & _ & ->).
    pose proof (cell_le_longest rows i r c Hr Hc). lia.
Qed.

(** X5: for a table with at least one header and one row, whose rows all
    have a cell for every header, [print_table] hands to [print], one after
    the other, four lines more than there are rows (three rules and the
    header line), and all the lines have the same length: the widths plus
    three characters per column and one more.  On a console that takes these
    lines it raises nothing and prints them all. *)
Theorem print_table_rectangular (stdout_write : string -> result unit)
        (rows : list (list string)) (hs : list string) :
  hs <> [] ->
  rows <> [] ->
  Forall (fun r => length hs <= length r) rows ->
  exists widths lines,
    col_w rows hs = Ok widths
    /\ print_table stdout_write rows hs = print_all stdout_write lines
    /\ (Forall (accepts stdout_write) lines ->
        print_table stdout_write rows hs = (lines, Ok tt))
    /\ length lines = length rows + 4
    /\ Forall (fun l => String.length l = table_width widths) lines.
Proof.
  intros Hhs Hne Hall.
  destruct (col_w_fits rows hs Hne Hall) as (widths & Hw & Hlen & Hfit_h & Hfit_r).
  exists widths, (table_lines widths rows hs). split; [exact Hw|].
  split; [apply (print_table_lines _ _ _ _ Hw)|].
  split.
  { intros Hacc. rewrite (print_table_lines _ _ _ _ Hw).
    apply print_all_accepted. exact Hacc. }
  assert (Hwne : widths <> []).
  { intros ->. destruct hs; [contradiction | discriminate]. }
  pose proof (line_text_length widths "=" Hwne eq_refl) as Hline.
  unfold table_lines. split.
  - simpl. rewrite length_app, length_map. simpl. lia.
  - repeat apply Forall_cons_2; try exact Hline.
    + apply row_text_length; [exact Hwne | lia | exact Hfit_h].
    + apply Forall_app. split.
      * apply Forall_forall. intros l Hl.
        apply list_elem_of_In, in_map_iff in Hl. destruct Hl as (r & <- & Hr).
        apply list_elem_of_In in Hr. rewrite Forall_forall in Hall.
        apply row_text_length; [exact Hwne | rewrite Hlen; apply Hall; exact Hr |].
        intros i c w. apply Hfit_r. exact Hr.
      * apply Forall_cons_2; [exact Hline | constructor].
Qed.

(** ** Orchestrator: how a run ends *)

Lemma main_load_raises (str_to_float : string -> option float)
      (format_float : string -> float -> string)
      (upper : string -> string) (stdout_write : string -> result unit)
      (fs net : string -> result json) (e : exn) :
  load_portfolio str_to_float upper fs PORTFOLIO_FILE = Raise e ->
  main str_to_float format_float upper stdout_write fs net = ([], Raise e).
Proof. intros H. unfold main. rewrite H. reflexivity. Qed.

Lemma main_fetch_raises (str_to_float : string -> option float)
      (format_float : string -> float -> string)
      (upper : string -> string) (stdout_write : string -> result unit)
      (fs net : string -> result json) (pf : list Holding) (e : exn) :
  load_portfolio str_to_float upper fs PORTFOLIO_FILE = Ok pf ->
  fetch_prices str_to_float net (sorted_set (map symbol pf)) = Raise e ->
  main str_to_float format_float upper stdout_write fs net = ([], Raise e).
Proof.
  intros Hload Hfetch. unfold main. rewrite Hload, io_bind_lift. cbv zeta.
  rewrite Hfetch. reflexivity.
Qed.



Lemma main_no_holdings (str_to_float : string -> option float)
      (format_float : string -> float -> string)
      (upper : string -> string) (stdout_write : string -> result unit)
      (fs net : string -> result json) :
  load_portfolio str_to_float upper fs PORTFOLIO_FILE = Ok [] ->
  exists out e, main str_to_float format_float upper stdout_write fs net = (out, Raise e).
Proof.
  intros Hload. unfold main. rewrite Hload. cbn. unfold print.
  destruct (stdout_write title); eexists; eexists; reflexivity.
Qed.

Lemma print_all_completes (stdout_write : string -> result unit) (lines : list string) :
  snd (print_all stdout_write lines) = Ok tt -> Forall (accepts stdout_write) lines.
Proof.
  unfold print_all. induction lines as [|x lines IH]; intros H; [constructor|].
  cbn [io_for] in H. unfold print at 1 in H.
  destruct (stdout_write x) as [[]|e] eqn:Hx; simpl in H; [|discriminate].
  destruct (io_for (print stdout_write) lines) as [out r]. simpl in H, IH.
  constructor; [exact Hx | apply IH; exact H].
Qed.

(** X6: a run ends normally exactly when the holdings load, there is at least
    one holding, the price fetch returns, and the console takes every line
    of the report (the title, the lines of the table and the three lines of
    totals): every other run ends with an exception. *)
Theorem main_completes_iff (str_to_float : string -> option float)
        (format_float : string -> float -> string)
        (upper : string -> string) (stdout_write : string -> result unit)
        (fs net : string -> result json) :
  snd (main str_to_float format_float upper stdout_write fs net) = Ok tt
  <-> exists pf live rs widths,
        load_portfolio str_to_float upper fs PORTFOLIO_FILE = Ok pf
        /\ pf <> []
        /\ fetch_prices str_to_float net (sorted_set (map symbol pf)) = Ok live
        /\ map_result (compute_row live) pf = Ok rs
        /\ col_w (map (format_row format_float) rs) headers = Ok widths
        /\ Forall (accepts stdout_write) (report_lines format_float widths rs).
Proof.
  split.
  - intros H.
    destruct (load_portfolio str_to_float upper fs PORTFOLIO_FILE) as [pf|e] eqn:Hload.
    2:{ rewrite (main_load_raises _ _ _ _ _ _ e Hload) in H. discriminate. }
    destruct (fetch_prices str_to_float net (sorted_set (map symbol pf)))
      as [live|e] eqn:Hfetch.
    2:{ rewrite (main_fetch_raises _ _ _ _ _ _ pf e Hload Hfetch) in H. discriminate. }
    destruct pf as [|h pf].
    { destruct (main_no_holdings _ format_float _ stdout_write _ net Hload)
        as (out & e & Hmain).
      rewrite Hmain in H. discriminate. }
    destruct (main_report str_to_float format_float upper stdout_write fs net
                (h :: pf) live Hload ltac:(discriminate) Hfetch)
      as (rs & widths & Hrs & Hw & Hmain).
    exists (h :: pf), live, rs, widths.
    split; [reflexivity|]. split; [discriminate|]. split; [exact Hfetch|].
    split; [exact Hrs|]. split; [exact Hw|].
    apply print_all_completes. rewrite <- Hmain. exact H.
  - intros (pf & live & rs & widths & Hload & Hne & Hfetch & Hrs & Hw & Hacc).
    destruct (main_report str_to_float format_float upper stdout_write fs net
                pf live Hload Hne Hfetch)
      as (rs' & widths' & Hrs' & Hw' & Hmain).
    assert (rs' = rs) by congruence. subst rs'.
    assert (widths' = widths) by congruence. subst widths'.
    rewrite Hmain, (print_all_accepted _ _ Hacc). reflexivity.
Qed.


(** ** Orchestrator: what a run prints *)

Lemma report_lines_length (format_float : string -> float -> string)
      (widths : list nat) (rs : list ReportRow) :
  length (report_lines format_float widths rs) = length rs + 8.
Proof.
  unfold report_lines, table_lines, total_lines. simpl.
  rewrite !length_app, !length_map. simpl. lia.
Qed.

(** X8: when the holdings load, there is at least one holding and the fetch
    returns a price mapping, the run hands to [print], one after the other,
    the title, the lines of the table of the formatted rows and the three
    lines of totals computed from the sums of the rows' cost and value:
    eight lines more than there are holdings.  On a console that takes these
    lines the run prints them all and ends normally. *)
Theorem main_prints_report (str_to_float : string -> option float)
        (format_float : string -> float -> string)
        (upper : string -> string) (stdout_write : string -> result unit)
        (fs net : string -> result json)
        (pf : list Holding) (live : gmap string float) :
  load_portfolio str_to_float upper fs PORTFOLIO_FILE = Ok pf ->
  pf <> [] ->
  fetch_prices str_to_float net (sorted_set (map symbol pf)) = Ok live ->
  exists rs widths,
    map_result (compute_row live) pf = Ok rs
    /\ col_w (map (format_row format_float) rs) headers = Ok widths
    /\ length (report_lines format_float widths rs) = length pf + 8
    /\ main str_to_float format_float upper stdout_write fs net =
       print_all stdout_write (report_lines format_float widths rs)
    /\ (Forall (accepts stdout_write) (report_lines format_float widths rs) ->
        main str_to_float format_float upper stdout_write fs net =
        (report_lines format_float widths rs, Ok tt)).
Proof.
  intros Hload Hne Hfetch.
  destruct (main_report str_to_float format_float upper stdout_write fs net
              pf live Hload Hne Hfetch)
    as (rs & widths & Hrs & Hw & Hmain).
  exists rs, widths. split; [exact Hrs|]. split; [exact Hw|]. split; [|split].
  - rewrite report_lines_length.
    apply map_result_Forall2, Forall2_length in Hrs. lia.
  - exact Hmain.
  - intros Hacc. rewrite Hmain. apply print_all_accepted. exact Hacc.
Qed.

Lemma fetch_prices_net_down (str_to_float : string -> option float)
      (net : string -> result json) (symbols : list string) :
  (forall url, exists e, net url = Raise e /\ caught e = true) ->
  fetch_prices str_to_float net symbols = Ok ∅.
Proof.
  intros Hdown. destruct (Hdown (price_url (cg_ids_of symbols))) as (e & Hnet & He).
  exact (fetch_prices_caught _ _ _ e Hnet He).
Qed.

Lemma fsum_ext (A : Type) (f g : A -> float) (l : list A) :
  Forall (fun x => f x = g x) l -> fsum (map f l) = fsum (map g l).
Proof.
  intros H. f_equal. induction H as [|x l Hx _ IH]; simpl; [reflexivity|].
  rewrite Hx, IH. reflexivity.
Qed.

(** X9: when every request fails with an exception that the handler of
    [fetch_prices] names ([URLError], [TimeoutError], [JSONDecodeError]), a
    run over at least one holding computes every row at its buy price, so
    that its value equals its cost and the total value equals the total
    cost, and hands the whole report to [print]; on a console that takes the
    lines of the report the run prints them all and ends normally. *)
Theorem main_survives_network_failure (str_to_float : string -> option float)
        (format_float : string -> float -> string)
        (upper : string -> string) (stdout_write : string -> result unit)
        (fs net : string -> result json) (pf : list Holding) :
  load_portfolio str_to_float upper fs PORTFOLIO_FILE = Ok pf ->
  pf <> [] ->
  (forall url, exists e, net url = Raise e /\ caught e = true) ->
  exists rs widths,
    map_result (compute_row ∅) pf = Ok rs
    /\ Forall2 (fun h r => row_price r = buy_price_usd h /\ row_value r = row_cost r)
               pf rs
    /\ fsum (map row_value rs) = fsum (map row_cost rs)
    /\ col_w (map (format_row format_float) rs) headers = Ok widths
    /\ main str_to_float format_float upper stdout_write fs net =
       print_all stdout_write (report_lines format_float widths rs)
    /\ (Forall (accepts stdout_write) (report_lines format_float widths rs) ->
        main str_to_float format_float upper stdout_write fs net =
        (report_lines format_float widths rs, Ok tt)).
Proof.
  intros Hload Hne Hdown.
  pose proof (fetch_prices_net_down str_to_float net (sorted_set (map symbol pf)) Hdown)
    as Hfetch.
  destruct (main_report str_to_float format_float upper stdout_write fs net
              pf ∅ Hload Hne Hfetch)
    as (rs & widths & Hrs & Hw & Hmain).
  assert (Hrows : Forall2 (fun h r => row_price r = buy_price_usd h
                                      /\ row_value r = row_cost r) pf rs).
  { pose proof (map_result_Forall2 _ _ _ Hrs) as H2.
    eapply Forall2_impl; [exact H2|].
    intros h r Hr. simpl in Hr. rewrite compute_row_ok in Hr.
    injection Hr as <-. simpl. rewrite lookup_empty. split; reflexivity. }
  exists rs, widths. split; [exact Hrs|]. split; [exact Hrows|].
  split; [|split; [exact Hw | split; [exact Hmain|]]].
  - apply fsum_ext. clear -Hrows.
    induction Hrows as [|h r pf rs [_ Hr] _ IH]; constructor; assumption.
  - intros Hacc. rewrite Hmain. apply print_all_accepted. exact Hacc.
Qed.

Lemma fold_result_ext {S A : Type} (f g : S -> A -> result S) (l : list A) (s : S) :
  (forall s0 x, x ∈ l -> f s0 x = g s0 x) ->
  fold_result f l s = fold_result g l s.
Proof.
  revert s. induction l as [|x xs IH]; intros s H; simpl; [reflexivity|].
  rewrite (H s x) by left.
  destruct (g s x) as [s1|e]; simpl; [|reflexivity].
  apply IH. intros s0 y Hy. apply H. right. exact Hy.
Qed.

Lemma main_loop_agree (format_float : string -> float -> string)
      (live1 live2 : gmap string float) (pf : list Holding) :
  (forall h, h ∈ pf -> live1 !! symbol h = live2 !! symbol h) ->
  main_loop format_float live1 pf = main_loop format_float live2 pf.
Proof.
  intros H. unfold main_loop. apply fold_result_ext.
  intros [[rows tc] tv] h Hh. unfold main_step, compute_row.
  rewrite (H h Hh). reflexivity.
Qed.

(** X10: the report depends on the fetched prices only through the symbols
    that are held: two price mappings that agree on the symbol of every
    holding give the same rows and totals, and two runs over the same file
    whose fetches return such mappings print the same report. *)
Theorem main_ignores_unheld_prices (str_to_float : string -> option float)
        (format_float : string -> float -> string)
        (upper : string -> string) (stdout_write : string -> result unit)
        (fs net1 net2 : string -> result json)
        (pf : list Holding) (live1 live2 : gmap string float) :
  load_portfolio str_to_float upper fs PORTFOLIO_FILE = Ok pf ->
  fetch_prices str_to_float net1 (sorted_set (map symbol pf)) = Ok live1 ->
  fetch_prices str_to_float net2 (sorted_set (map symbol pf)) = Ok live2 ->
  (forall h, h ∈ pf -> live1 !! symbol h = live2 !! symbol h) ->
  main_loop format_float live1 pf = main_loop format_float live2 pf
  /\ main str_to_float format_float upper stdout_write fs net1
     = main str_to_float format_float upper stdout_write fs net2.
Proof.
  intros Hload H1 H2 Hagree.
  pose proof (main_loop_agree format_float live1 live2 pf Hagree) as Hloop.
  split; [exact Hloop|].
  unfold main. rewrite Hload, !io_bind_lift. cbv zeta.
  rewrite H1, H2, !io_bind_lift, Hloop. reflexivity.
Qed.

(** ** Orchestrator: the symbols that are requested *)

Lemma str_lt_trans (a b c : string) : str_lt a b -> str_lt b c -> str_lt a c.
Proof.
  unfold str_lt. intros Hab Hbc.
  assert (Hle : String.le a c).
  { transitivity b; unfold String.le, String.leb.
    - rewrite Hab. exact I.
    - rewrite Hbc. exact I. }
  unfold String.le, String.leb in Hle.
  destruct (String.compare a c) eqn:Hac; [|reflexivity|contradiction].
  apply String.compare_eq_iff in Hac. subst c.
  rewrite String.compare_antisym, Hab in Hbc. discriminate.
Qed.

Lemma str_lt_irrefl (a : string) : ~ str_lt a a.
Proof.
  unfold str_lt. intros H.
  pose proof (String.compare_antisym a a) as Ha. rewrite H in Ha. discriminate.
Qed.

Lemma insert_sorted_elem (s x : string) (l : list string) :
  x ∈ insert_sorted s l <-> x = s \/ x ∈ l.
Proof.
  induction l as [|y l IH]; simpl.
  - rewrite list_elem_of_singleton, elem_of_nil. tauto.
  - destruct (String.compare s y) eqn:Hc.
    + apply String.compare_eq_iff in Hc. subst y.
      rewrite elem_of_cons. tauto.
    + rewrite elem_of_cons. tauto.
    + rewrite !elem_of_cons, IH. tauto.
Qed.

Lemma insert_sorted_sorted (s : string) (l : list string) :
  StronglySorted str_lt l -> StronglySorted str_lt (insert_sorted s l).
Proof.
  induction l as [|y l IH]; intros Hl; simpl.
  - repeat constructor.
  - apply StronglySorted_cons in Hl. destruct Hl as [Hy Hl].
    destruct (String.compare s y) eqn:Hc.
    + apply StronglySorted_cons. split; assumption.
    + apply StronglySorted_cons. split; [|apply StronglySorted_cons; split; assumption].
      constructor; [exact Hc|].
      eapply Forall_impl; [exact Hy|]. intros z Hz. exact (str_lt_trans s y z Hc Hz).
    + apply StronglySorted_cons. split; [|apply IH; exact Hl].
      apply Forall_forall. intros z Hz. apply insert_sorted_elem in Hz.
      destruct Hz as [-> | Hz].
      * unfold str_lt. rewrite String.compare_antisym, Hc. reflexivity.
      * rewrite Forall_forall in Hy. apply Hy. exact Hz.
Qed.

Lemma sorted_set_elem (x : string) (l : list string) : x ∈ sorted_set l <-> x ∈ l.
Proof.
  induction l as [|y l IH]; simpl; [reflexivity|].
  rewrite insert_sorted_elem, IH, elem_of_cons. reflexivity.
Qed.

Lemma sorted_set_sorted (l : list string) : StronglySorted str_lt (sorted_set l).
Proof.
  induction l as [|y l IH]; simpl; [constructor|].
  apply insert_sorted_sorted. exact IH.
Qed.

Lemma StronglySorted_str_lt_NoDup (l : list string) : StronglySorted str_lt l -> NoDup l.
Proof.
  induction l as [|x l IH]; intros H; [constructor|].
  apply StronglySorted_cons in H. destruct H as [Hx Hl].
  constructor; [|apply IH; exact Hl].
  intros Hin. rewrite Forall_forall in Hx. exact (str_lt_irrefl x (Hx x Hin)).
Qed.

(** X11: the list of symbols that [main] hands to [fetch_prices] holds
    exactly the symbols of the holdings, each once, in strictly increasing
    order, however many holdings share a symbol and in whatever order the
    file lists them. *)
Theorem symbols_sorted_distinct (pf : list Holding) :
  (forall s, s ∈ sorted_set (map symbol pf) <-> exists h, h ∈ pf /\ symbol h = s)
  /\ StronglySorted str_lt (sorted_set (map symbol pf))
  /\ NoDup (sorted_set (map symbol pf)).
Proof.
  split; [|split].
  - intros s. rewrite sorted_set_elem. split.
    + intros Hs. apply list_elem_of_In, in_map_iff in Hs.
      destruct Hs as (h & Hh & Hin). exists h. split; [|exact Hh].
      apply list_elem_of_In. exact Hin.
    + intros (h & Hin & <-). apply list_elem_of_In, in_map. apply list_elem_of_In. exact Hin.
  - apply sorted_set_sorted.
  - apply StronglySorted_str_lt_NoDup, sorted_set_sorted.
Qed.

Lemma cg_ids_of_NoDup (symbols : list string) :
  NoDup symbols -> NoDup (cg_ids_of symbols).
Proof.
  unfold cg_ids_of. induction symbols as [|s symbols IH]; intros Hnd; simpl.
  - constructor.
  - apply NoDup_cons in Hnd. destruct Hnd as [Hs Hnd].
    destruct (CG_IDS !! s) as [cg|] eqn:Hcg; [|apply IH; exact Hnd].
    constructor; [|apply IH; exact Hnd].
    intros Hin. apply list_elem_of_omap in Hin. destruct Hin as (s' & Hs' & Hcg').
    apply Hs. apply id_to_symbol_Some in Hcg, Hcg'.
    assert (s' = s) by congruence. subst s'. exact Hs'.
Qed.

(** X12: the identifiers placed in the request URL of a run are exactly the
    [CG_IDS] identifiers of the held symbols, and each appears once, however
    many holdings share a symbol. *)
Theorem requested_ids_distinct (pf : list Holding) :
  NoDup (cg_ids_of (sorted_set (map symbol pf)))
  /\ forall cg_id,
       cg_id ∈ cg_ids_of (sorted_set (map symbol pf))
       <-> exists h, h ∈ pf /\ CG_IDS !! symbol h = Some cg_id.
Proof.
  split.
  - apply cg_ids_of_NoDup, StronglySorted_str_lt_NoDup, sorted_set_sorted.
  - intros cg_id. unfold cg_ids_of. rewrite list_elem_of_omap. split.
    + intros (s & Hs & Hcg). apply (proj1 (sorted_set_elem _ _)) in Hs.
      apply list_elem_of_In, in_map_iff in Hs. destruct Hs as (h & <- & Hin).
      exists h. split; [apply list_elem_of_In; exact Hin | exact Hcg].
    + intros (h & Hin & Hcg). exists (symbol h). split; [|exact Hcg].
      apply sorted_set_elem. apply list_elem_of_In, in_map, list_elem_of_In. exact Hin.
Qed.

(** ** Holdings Loader: the record that makes the load fail *)

Lemma map_result_app_Raise {A B : Type} (f : A -> result B)
      (good : list A) (bad : A) (rest : list A) (e : exn) :
  Forall (fun x => is_ok (f x) = true) good ->
  f bad = Raise e ->
  map_result f (good ++ bad :: rest) = Raise e.
Proof.
  intros Hgood Hbad. induction Hgood as [|x good Hx _ IH]; simpl.
  - rewrite Hbad. reflexivity.
  - destruct (f x) as [y|e']; [|discriminate]. simpl. rewrite IH. reflexivity.
Qed.

(** X13: the load fails with the exception of the first element that does
    not normalise: when the elements before it are valid records, the
    exception raised for it is the outcome of the load, whatever follows it
    in the file. *)
Theorem load_fails_at_first_bad_record (str_to_float : string -> option float)
        (upper : string -> string)
        (fs : string -> result json) (path : string) (data : json)
        (good : list json) (bad : json) (rest : list json) (e : exn) :
  fs path = Ok data ->
  py_iter data = Ok (good ++ bad :: rest) ->
  Forall (fun a => valid_record str_to_float a = true) good ->
  normalize str_to_float upper bad = Raise e ->
  load_portfolio str_to_float upper fs path = Raise e.
Proof.
  intros Hfs Hiter Hgood Hbad. unfold load_portfolio.
  rewrite Hfs. simpl. rewrite Hiter. simpl.
  apply map_result_app_Raise; [|exact Hbad].
  eapply Forall_impl; [exact Hgood|]. intros a Ha. simpl.
  rewrite is_ok_normalize. exact Ha.
Qed.

(** ** Metrics Calculator: the rows handed to the renderer *)

(** X14: for every holdings list and price mapping the loop of [main] ends
    without raising, with one row per holding in the order of the holdings;
    every row has exactly as many cells as [headers], and its first cell is
    the symbol of its holding. *)
Theorem main_loop_rows_shape (format_float : string -> float -> string)
        (live : gmap string float) (pf : list Holding) :
  exists rows total_cost total_value,
    main_loop format_float live pf = Ok (rows, total_cost, total_value)
    /\ length rows = length pf
    /\ Forall (fun r => length r = length headers) rows
    /\ forall i h, pf !! i = Some h ->
         exists r, rows !! i = Some r /\ r !! 0 = Some (symbol h).
Proof.
  destruct (compute_rows_total live pf) as [rs [Hrs Hlen]].
  exists (map (format_row format_float) rs). eexists. eexists.
  split; [apply main_loop_rows; exact Hrs|]. split; [|split].
  - rewrite length_map. exact Hlen.
  - apply Forall_forall. intros r Hr.
    apply list_elem_of_In, in_map_iff in Hr. destruct Hr as (x & <- & _). reflexivity.
  - intros i h Hh. apply map_result_Forall2 in Hrs.
    destruct (Forall2_lookup_l _ _ _ _ _ Hrs Hh) as (r & Hr & Hrow).
    exists (format_row format_float r). split.
    + change (map ?f ?l) with (f <$> l). rewrite list_lookup_fmap, Hr. reflexivity.
    + simpl in Hrow. rewrite compute_row_ok in Hrow. injection Hrow as <-. reflexivity.
Qed.

(** ** Metrics Calculator: symbols outside the table *)

Lemma fetched_key_known (str_to_float : string -> option float)
      (net : string -> result json) (symbols : list string)
      (live : gmap string float) (k : string) :
  fetch_prices str_to_float net symbols = Ok live ->
  k ∈ dom live -> k ∈ dom CG_IDS.
Proof.
  intros H Hk. apply fetch_prices_cases in H.
  destruct H as [-> | (items & _ & Hloop)].
  - rewrite dom_empty_L in Hk. set_solver.
  - destruct (price_loop_keys _ _ _ Hloop k Hk) as (cg_id & _ & Hsym).
    apply id_to_symbol_Some in Hsym. apply elem_of_dom. eexists. exact Hsym.
Qed.

(** X15: a holding whose symbol is not a ticker of [CG_IDS] is always
    reported at its buy price: whatever the symbols requested and whatever
    the network answered, when [fetch_prices] returns a mapping the row of
    such a holding has its buy price for price and its cost for value. *)
Theorem unknown_symbol_uses_buy_price (str_to_float : string -> option float)
        (net : string -> result json) (symbols : list string)
        (live : gmap string float) (h : Holding) :
  fetch_prices str_to_float net symbols = Ok live ->
  symbol h ∉ dom CG_IDS ->
  exists r, compute_row live h = Ok r
    /\ row_price r = buy_price_usd h
    /\ row_value r = row_cost r.
Proof.
  intros Hfetch Hunknown.
  assert (Hnone : live !! symbol h = None).
  { apply not_elem_of_dom. intros Hk. apply Hunknown.
    exact (fetched_key_known _ _ _ _ _ Hfetch Hk). }
  eexists. split; [apply compute_row_ok|]. simpl. rewrite Hnone. split; reflexivity.
Qed.

(** ** The further properties at concrete inputs *)

Lemma fetch_without_known_symbols_witness :
  fetch_prices no_text_floats generous_net ["XXX"; "YYY"] = Ok ∅
  /\ fetch_prices no_text_floats scenario_net ["BTC"; "XXX"]
     = fetch_prices no_text_floats bitcoin_only_net ["BTC"; "XXX"].
Proof.
  split.
  - apply (proj1 (fetch_without_known_symbols no_text_floats generous_net generous_net
                    ["XXX"; "YYY"])).
    intros s Hs. apply not_elem_of_dom.
    apply elem_of_cons in Hs. destruct Hs as [-> | Hs]; [reflexivity|].
    apply list_elem_of_singleton in Hs. subst s. reflexivity.
  - apply (proj2 (fetch_without_known_symbols no_text_floats scenario_net
                    bitcoin_only_net ["BTC"; "XXX"])).
    vm_compute. reflexivity.
Defined.

Lemma fetch_raises_only_uncaught_witness :
  fetch_prices no_text_floats array_net ["BTC"] = Raise AttributeError
  /\ caught AttributeError = false.
Proof.
  assert (H : fetch_prices no_text_floats array_net ["BTC"] = Raise AttributeError)
    by (vm_compute; reflexivity).
  split; [exact H|].
  exact (proj1 (fetch_raises_only_uncaught no_text_floats array_net ["BTC"]
                  AttributeError H)).
Defined.

Lemma fetch_prices_lookup_witness :
  fetch_prices no_text_floats scenario_net ["BTC"; "ETH"] = Ok scenario_live
  /\ forall sym f,
       scenario_live !! sym = Some f <->
       exists item,
         item ∈ [("bitcoin", JObj [("usd", JInt 30000)])]
         /\ quotes no_text_floats item sym f.
Proof.
  assert (H : fetch_prices no_text_floats scenario_net ["BTC"; "ETH"] = Ok scenario_live)
    by (vm_compute; reflexivity).
  split; [exact H|].
  apply (fetch_prices_lookup no_text_floats scenario_net ["BTC"; "ETH"]).
  - vm_compute. discriminate.
  - reflexivity.
  - apply NoDup_singleton.
  - exact H.
Defined.

Lemma col_w_outcomes_witness :
  is_ok (col_w sample_rows sample_headers) = true
  /\ col_w [] sample_headers = Raise TypeError
  /\ col_w [["a"]] sample_headers = Raise IndexError
  /\ print_table utf8_stdout [["a"]] sample_headers = ([], Raise IndexError).
Proof.
  split; [|split; [|split]].
  - apply (proj1 (col_w_outcomes utf8_stdout sample_rows sample_headers)). right.
    split; [discriminate|]. repeat constructor; simpl; lia.
  - apply (proj1 (proj2 (col_w_outcomes utf8_stdout [] sample_headers)));
      [discriminate | reflexivity].
  - apply (proj1 (proj2 (proj2 (col_w_outcomes utf8_stdout [["a"]] sample_headers)))
             ["a"]).
    + left.
    + simpl. lia.
  - apply (proj2 (proj2 (proj2 (col_w_outcomes utf8_stdout [["a"]] sample_headers)))).
    reflexivity.
Defined.

Lemma utf8_stdout_accepts (lines : list string) : Forall (accepts utf8_stdout) lines.
Proof. apply Forall_forall. intros l _. reflexivity. Defined.

Lemma print_table_rectangular_witness :
  exists widths lines,
    col_w sample_rows sample_headers = Ok widths
    /\ print_table utf8_stdout sample_rows sample_headers = (lines, Ok tt)
    /\ length lines = length sample_rows + 4
    /\ Forall (fun l => String.length l = table_width widths) lines.
Proof.
  destruct (print_table_rectangular utf8_stdout sample_rows sample_headers)
    as (widths & lines & Hw & _ & Hprint & Hlen & Hrect).
  - discriminate.
  - discriminate.
  - repeat constructor; simpl; lia.
  - exists widths, lines. split; [exact Hw|].
    split; [apply Hprint, utf8_stdout_accepts|]. split; assumption.
Defined.

Lemma main_prints_report_witness :
  exists rs widths,
    map_result (compute_row scenario_live) scenario_pf = Ok rs
    /\ col_w (map (format_row show_spec) rs) headers = Ok widths
    /\ length (report_lines show_spec widths rs) = length scenario_pf + 8
    /\ main no_text_floats show_spec ascii_upper utf8_stdout scenario_fs scenario_net =
       (report_lines show_spec widths rs, Ok tt).
Proof.
  destruct (main_prints_report no_text_floats show_spec ascii_upper utf8_stdout
              scenario_fs scenario_net scenario_pf scenario_live)
    as (rs & widths & Hrs & Hw & Hlen & _ & Hmain).
  - vm_compute. reflexivity.
  - discriminate.
  - vm_compute. reflexivity.
  - exists rs, widths. split; [exact Hrs|]. split; [exact Hw|]. split; [exact Hlen|].
    apply Hmain, utf8_stdout_accepts.
Defined.

Lemma main_survives_network_failure_witness :
  exists rs widths,
    map_result (compute_row ∅) scenario_pf = Ok rs
    /\ Forall2 (fun h r => row_price r = buy_price_usd h /\ row_value r = row_cost r)
               scenario_pf rs
    /\ fsum (map row_value rs) = fsum (map row_cost rs)
    /\ main no_text_floats show_spec ascii_upper utf8_stdout scenario_fs down_net =
       (report_lines show_spec widths rs, Ok tt).
Proof.
  destruct (main_survives_network_failure no_text_floats show_spec ascii_upper
              utf8_stdout scenario_fs down_net scenario_pf)
    as (rs & widths & Hrs & Hrows & Hsum & _ & _ & Hmain).
  - vm_compute. reflexivity.
  - discriminate.
  - intros url. exists URLError. split; reflexivity.
  - exists rs, widths. split; [exact Hrs|]. split; [exact Hrows|]. split; [exact Hsum|].
    apply Hmain, utf8_stdout_accepts.
Defined.

Lemma main_ignores_unheld_prices_witness :
  main_loop show_spec scenario_live scenario_pf
  = main_loop show_spec {["BTC" := 30000%float; "SOL" := 150%float]} scenario_pf
  /\ main no_text_floats show_spec ascii_upper utf8_stdout scenario_fs scenario_net
     = main no_text_floats show_spec ascii_upper utf8_stdout scenario_fs extra_net.
Proof.
  apply (main_ignores_unheld_prices no_text_floats show_spec ascii_upper utf8_stdout
           scenario_fs scenario_net extra_net scenario_pf).
  - vm_compute. reflexivity.
  - vm_compute. reflexivity.
  - vm_compute. reflexivity.
  - intros h Hh. apply elem_of_cons in Hh. destruct Hh as [-> | Hh]; [reflexivity|].
    apply list_elem_of_singleton in Hh. subst h. reflexivity.
Defined.

Lemma load_fails_at_first_bad_record_witness :
  load_portfolio no_text_floats ascii_upper second_bad_fs PORTFOLIO_FILE = Raise KeyError.
Proof.
  apply (load_fails_at_first_bad_record no_text_floats ascii_upper second_bad_fs
           PORTFOLIO_FILE
           (JList [record (JStr "btc") (JInt 1) (JInt 2);
                   JObj [("symbol", JStr "eth"); ("buy_price_usd", JInt 3)];
                   JNull])
           [record (JStr "btc") (JInt 1) (JInt 2)]
           (JObj [("symbol", JStr "eth"); ("buy_price_usd", JInt 3)])
           [JNull]).
  - reflexivity.
  - reflexivity.
  - constructor; [vm_compute; reflexivity | constructor].
  - vm_compute. reflexivity.
Defined.

Lemma unknown_symbol_uses_buy_price_witness :
  exists r, compute_row {["BTC" := 30000%float; "ETH" := 2000%float]}
                        (mkHolding "XXX" 3 7) = Ok r
    /\ row_price r = 7%float
    /\ row_value r = row_cost r.
Proof.
  apply (unknown_symbol_uses_buy_price no_text_floats generous_net ["BTC"; "XXX"]
           {["BTC" := 30000%float; "ETH" := 2000%float]} (mkHolding "XXX" 3 7)).
  - vm_compute. reflexivity.
  - apply not_elem_of_dom. reflexivity.
Defined.
